(** * ical2org: the calendar-to-outline conversion engine

    A shallow embedding of [ical2org.py]: the two time formatters
    ([org_datetime], [org_date]), the conversion engine
    ([Convertor.__call__]) and the thin command line around it
    ([check_timezone], [print_timezones], [main]).

    The library calls the program makes are modelled by what they do:
    Python's [str.replace], [str.split] and [str.join]; the proleptic
    Gregorian calendar of [datetime] (ordinals, [astimezone],
    [strftime]); click's [IntRange].  The collaborators whose results the
    program only passes along (calendar decoder, recurrence expansion,
    markup sniffer, pandoc, the zone registry, the clock, the zone of the
    machine and the progress bar) are the fields of a record [World]. *)

From Stdlib Require Import ZArith List Bool Ascii String Lia.
Import ListNotations.

Local Open Scope string_scope.
Local Open Scope Z_scope.

(** ** Python strings *)

Module PyStr.

(** Truth value of a string: empty is false. *)
Definition truthy (s : string) : bool :=
  match s with EmptyString => false | String _ _ => true end.

(** [None] and the empty string are both false, as in [if description:]. *)
Definition truthy_opt (o : option string) : bool :=
  match o with None => false | Some s => truthy s end.

(** [s.startswith(p)]. *)
Fixpoint startswith (p s : string) : bool :=
  match p, s with
  | EmptyString, _ => true
  | String a p', String b s' => Ascii.eqb a b && startswith p' s'
  | String _ _, EmptyString => false
  end.

(** [s.replace(old, new)] for a non-empty [old]: occurrences are found
    from the left and do not overlap.  [skip] counts the characters of
    the occurrence just replaced that are still to be dropped. *)
Fixpoint replace_from (old new : string) (skip : nat) (s : string) : string :=
  match s with
  | EmptyString => EmptyString
  | String c s' =>
      match skip with
      | S k => replace_from old new k s'
      | O =>
          if startswith old s
          then new ++ replace_from old new (Nat.pred (String.length old)) s'
          else String c (replace_from old new O s')
      end
  end.

Definition replace (old new s : string) : string := replace_from old new O s.

(** [s.split(sep)] for a non-empty [sep]: the pieces between the
    occurrences of [sep], found from the left; always at least one piece.
    [cur] is the piece being read, in reverse. *)
Fixpoint split_from (sep : string) (skip : nat) (cur : string) (s : string)
  : list string :=
  match s with
  | EmptyString => [cur]
  | String c s' =>
      match skip with
      | S k => split_from sep k cur s'
      | O =>
          if startswith sep s
          then cur :: split_from sep (Nat.pred (String.length sep)) EmptyString s'
          else split_from sep O (cur ++ String c EmptyString) s'
      end
  end.

Definition split (sep s : string) : list string :=
  split_from sep O EmptyString s.

(** [sep.join(pieces)]. *)
Fixpoint join (sep : string) (pieces : list string) : string :=
  match pieces with
  | [] => EmptyString
  | [p] => p
  | p :: rest => p ++ sep ++ join sep rest
  end.

End PyStr.

(** The characters the program names. *)
Definition backslash : ascii := Ascii.ascii_of_nat 92.
Definition newline : ascii := Ascii.ascii_of_nat 10.
Definition comma : ascii := ",".
Definition NL : string := String newline EmptyString.
(** The two-character Python literals ['\\,'] and ['\\n']. *)
Definition esc_comma : string := String backslash ",".
Definition esc_newline : string := String backslash "n".

(** ** The calendar of Python's [datetime]

    The proleptic Gregorian calendar with day 1 = 0001-01-01, computed
    as [datetime] computes it. *)

Module PyDate.

Record date := mkdate { year : Z; month : Z; day : Z }.

Definition MINYEAR : Z := 1.
Definition MAXYEAR : Z := 9999.
(** [date(9999, 12, 31).toordinal()] *)
Definition MAXORDINAL : Z := 3652059.

Definition DAYS_IN_MONTH : list Z :=
  [-1; 31; 28; 31; 30; 31; 30; 31; 31; 30; 31; 30; 31].
Definition DAYS_BEFORE_MONTH : list Z :=
  [-1; 0; 31; 59; 90; 120; 151; 181; 212; 243; 273; 304; 334].

Definition tbl (t : list Z) (i : Z) : Z := nth (Z.to_nat i) t (-1).

Definition is_leap (y : Z) : bool :=
  (y mod 4 =? 0) && (negb (y mod 100 =? 0) || (y mod 400 =? 0)).

Definition days_before_year (y : Z) : Z :=
  let y := y - 1 in y * 365 + y / 4 - y / 100 + y / 400.

Definition days_in_month (y m : Z) : Z :=
  if (m =? 2) && is_leap y then 29 else tbl DAYS_IN_MONTH m.

Definition days_before_month (y m : Z) : Z :=
  tbl DAYS_BEFORE_MONTH m + Z.b2z ((m >? 2) && is_leap y).

Definition ymd2ord (y m d : Z) : Z :=
  days_before_year y + days_before_month y m + d.

Definition toordinal (d : date) : Z := ymd2ord (year d) (month d) (day d).

(** The last steps of [_ord2ymd]: month and day from the zero-based day
    of the year. *)
Definition month_day (leapyear : bool) (n : Z) : Z * Z :=
  let month := Z.shiftr (n + 50) 5 in
  let preceding := tbl DAYS_BEFORE_MONTH month
                   + Z.b2z ((month >? 2) && leapyear) in
  if preceding >? n then
    let month := month - 1 in
    let preceding := preceding
                     - (tbl DAYS_IN_MONTH month
                        + Z.b2z ((month =? 2) && leapyear)) in
    (month, n - preceding + 1)
  else (month, n - preceding + 1).

Definition DI400Y : Z := 146097.
Definition DI100Y : Z := 36524.
Definition DI4Y : Z := 1461.

Definition ord2ymd (n : Z) : date :=
  let n := n - 1 in
  let n400 := n / DI400Y in
  let n := n mod DI400Y in
  let year := n400 * 400 + 1 in
  let n100 := n / DI100Y in
  let n := n mod DI100Y in
  let n4 := n / DI4Y in
  let n := n mod DI4Y in
  let n1 := n / 365 in
  let n := n mod 365 in
  let year := year + (n100 * 100 + n4 * 4 + n1) in
  if (n1 =? 4) || (n100 =? 4) then mkdate (year - 1) 12 31
  else
    let leapyear := (n1 =? 3) && (negb (n4 =? 24) || (n100 =? 3)) in
    let '(m, d) := month_day leapyear n in
    mkdate year m d.

Definition fromordinal (n : Z) : date := ord2ymd n.

(** [date.weekday()]: Monday is 0. *)
Definition weekday (d : date) : Z := (toordinal d + 6) mod 7.

(** What the constructor [date(y, m, d)] accepts. *)
Definition valid_date (d : date) : Prop :=
  MINYEAR <= year d <= MAXYEAR /\ 1 <= month d <= 12
  /\ 1 <= day d <= days_in_month (year d) (month d).

Definition valid_dateb (d : date) : bool :=
  (MINYEAR <=? year d) && (year d <=? MAXYEAR)
  && (1 <=? month d) && (month d <=? 12)
  && (1 <=? day d) && (day d <=? days_in_month (year d) (month d)).

End PyDate.

(** ** Exceptions and results *)

Inductive exn : Type :=
| ValueError (msg : string)
| KeyError (key : string)
| AttributeError (msg : string)
| OverflowError (msg : string)
| RuntimeError (msg : string)
| UnknownTimeZoneError (name : string)
| IcalError (msg : string)
| BadParameter (msg : string)
| Exit (code : Z)
| Abort.

Inductive result (A : Type) : Type :=
| Ok (a : A)
| Raise (e : exn).
Arguments Ok {A} a.
Arguments Raise {A} e.

Definition rbind {A B} (r : result A) (k : A -> result B) : result B :=
  match r with Ok a => k a | Raise e => Raise e end.

(** [mapping[key]]: a missing key raises [KeyError]. *)
Definition getitem {A} (key : string) (o : option A) : result A :=
  match o with Some a => Ok a | None => Raise (KeyError key) end.

(** ** [datetime], [timedelta], [astimezone] and [strftime] *)

Module PyDateTime.
Import PyDate.

(** A [datetime.datetime]: the wall-clock date, the second of the day,
    and the offset from UTC (in seconds, east positive) its [tzinfo]
    gives at that wall time; [None] for a naive value.  Microseconds
    are left out: no format of the program prints them. *)
Record datetime := mkdt {
  dt_date : date;
  dt_sod : Z;
  dt_utcoffset : option Z
}.

(** A zone as [astimezone] uses it: the offset in force at a UTC time,
    which is given in seconds, day 1 starting at 86400. *)
Definition tzinfo : Type := Z -> Z.

(** [pytz.timezone('UTC')] *)
Definition UTC : tzinfo := fun _ => 0.

Definition SECONDS_PER_DAY : Z := 86400.

Definition dt_seconds (dt : datetime) : Z :=
  toordinal (dt_date dt) * SECONDS_PER_DAY + dt_sod dt.

(** [timedelta(days=n)], in seconds; the constructor refuses more than
    999999999 days. *)
Definition timedelta_days (n : Z) : result Z :=
  if Z.abs n <=? 999999999 then Ok (n * SECONDS_PER_DAY)
  else Raise (OverflowError "days out of range").

(** [dt + timedelta(seconds=k)]: through the ordinal, and refused when
    the day leaves 1..MAXORDINAL. *)
Definition add_seconds (dt : datetime) (k : Z) : result datetime :=
  let total := dt_seconds dt + k in
  let days := total / SECONDS_PER_DAY in
  if (0 <? days) && (days <=? MAXORDINAL)
  then Ok (mkdt (fromordinal days) (total mod SECONDS_PER_DAY)
             (dt_utcoffset dt))
  else Raise (OverflowError "date value out of range").

(** [d + timedelta(days=k)] on a [date]. *)
Definition date_add_days (d : date) (k : Z) : result date :=
  let o := toordinal d + k in
  if (0 <? o) && (o <=? MAXORDINAL) then Ok (fromordinal o)
  else Raise (OverflowError "date value out of range").

(** The first second of day 1 (0001-01-01) and the one after the last
    day, as [dt_seconds] counts them. *)
Definition FIRST_SECOND : Z := SECONDS_PER_DAY.
Definition END_SECOND : Z := (MAXORDINAL + 1) * SECONDS_PER_DAY.

(** The offset [astimezone] gives a naive [dt]: that of the machine's
    zone at the wall time of [dt], [local] giving the offset of the zone
    at a wall time.  CPython finds it by taking times near [dt] to local
    time, the one a day before among them, and refuses a local time
    outside the years 1 to 9999 with a [ValueError]. *)
Definition naive_utcoffset (local : Z -> Z) (dt : datetime) : result Z :=
  let t := dt_seconds dt in
  let lo := local t in
  if (t + lo <? FIRST_SECOND) || (t - SECONDS_PER_DAY <? FIRST_SECOND)
  then Raise (ValueError "year 0 is out of range")
  else if END_SECOND <=? t + lo
       then Raise (ValueError "year 10000 is out of range")
       else Ok lo.

(** [dt.astimezone(tz)] (Python 3.6 and later): a naive [dt] is read as
    a time of the machine's zone; the value is taken to UTC and
    [tz.fromutc] adds the offset [tz] has there.  (When [tz] is the
    very zone object of [dt] Python returns [dt] as it is, which is what
    the two steps compute.) *)
Definition astimezone (local : Z -> Z) (tz : tzinfo) (dt : datetime)
  : result datetime :=
  rbind (match dt_utcoffset dt with
         | Some off => Ok off
         | None => naive_utcoffset local dt
         end) (fun myoffset =>
  rbind (add_seconds dt (- myoffset)) (fun utc =>
  let off := tz (dt_seconds utc) in
  rbind (add_seconds utc off) (fun r =>
  Ok (mkdt (dt_date r) (dt_sod r) (Some off))))).

(** [datetime.combine(d, datetime.min.time())]: naive midnight of [d]. *)
Definition combine_midnight (d : date) : datetime := mkdt d 0 None.

Definition digit (n : Z) : ascii := ascii_of_nat (48 + Z.to_nat (n mod 10)).

Definition pad2 (n : Z) : string :=
  String (digit (n / 10)) (String (digit n) EmptyString).

Definition pad4 (n : Z) : string :=
  String (digit (n / 1000)) (String (digit (n / 100)) (pad2 n)).

(** [%a] in the C locale; [weekday] 0 is Monday. *)
Definition day_abbr (wd : Z) : string :=
  nth (Z.to_nat wd) ["Mon"; "Tue"; "Wed"; "Thu"; "Fri"; "Sat"; "Sun"] EmptyString.

(** [%Y] as the C library prints it: the year in decimal, not padded
    (years are 1 to 9999). *)
Definition fmt_Y (y : Z) : string :=
  if y <? 10 then String (digit y) EmptyString
  else if y <? 100 then pad2 y
  else if y <? 1000 then String (digit (y / 100)) (pad2 y)
  else pad4 y.

(** [%Y-%m-%d %a] *)
Definition fmt_Ymd_a (d : date) : string :=
  fmt_Y (year d) ++ "-" ++ pad2 (month d) ++ "-" ++ pad2 (day d)
  ++ " " ++ day_abbr (weekday d).

(** [%H:%M] *)
Definition fmt_HM (sod : Z) : string :=
  pad2 (sod / 3600) ++ ":" ++ pad2 (sod / 60 mod 60).

(** [dt.strftime("<%Y-%m-%d %a %H:%M>")] *)
Definition strftime_datetime (dt : datetime) : string :=
  "<" ++ fmt_Ymd_a (dt_date dt) ++ " " ++ fmt_HM (dt_sod dt) ++ ">".

(** [dt.strftime("<%Y-%m-%d %a>")] *)
Definition strftime_date (dt : datetime) : string :=
  "<" ++ fmt_Ymd_a (dt_date dt) ++ ">".

End PyDateTime.

(** ** The process: streams, and a monad of writes and exceptions *)

(** Where [org_file] points: [-] is the standard output, anything else a
    file that click opens at the first write. *)
Inductive sink : Type := SinkStdout | SinkFile.

Record Proc := mkProc {
  stdout : string;
  stderr : string;
  (** the output file: [None] until it is opened *)
  outfile : option string
}.

Definition fresh : Proc := mkProc EmptyString EmptyString None.

(** The bytes the output sink has received. *)
Definition sink_bytes (t : sink) (p : Proc) : string :=
  match t with
  | SinkStdout => stdout p
  | SinkFile => match outfile p with Some s => s | None => EmptyString end
  end.

Definition M (A : Type) : Type := Proc -> Proc * result A.

Definition ret {A} (a : A) : M A := fun p => (p, Ok a).

Definition bind {A B} (m : M A) (k : A -> M B) : M B :=
  fun p => match m p with
           | (p', Ok a) => k a p'
           | (p', Raise e) => (p', Raise e)
           end.

Definition raise {A} (e : exn) : M A := fun p => (p, Raise e).

Definition lift {A} (r : result A) : M A := fun p => (p, r).

Notation "x <- m ;; k" := (bind m (fun x => k))
  (at level 61, m at next level, right associativity).
Notation "m ;;; k" := (bind m (fun _ => k))
  (at level 61, right associativity).

(** [fh_w.write(s)] *)
Definition write (t : sink) (s : string) : M unit :=
  fun p =>
    match t with
    | SinkStdout => (mkProc (stdout p ++ s) (stderr p) (outfile p), Ok tt)
    | SinkFile => (mkProc (stdout p) (stderr p) (Some (sink_bytes SinkFile p ++ s)),
                   Ok tt)
    end.

(** [click.echo(s)] and [click.echo(s, err=True)] *)
Definition echo (s : string) : M unit :=
  fun p => (mkProc (stdout p ++ s ++ NL) (stderr p) (outfile p), Ok tt).
Definition echo_err (s : string) : M unit :=
  fun p => (mkProc (stdout p) (stderr p ++ s ++ NL) (outfile p), Ok tt).

(** [for x in xs: body(x)] *)
Fixpoint for_each {A} (xs : list A) (body : A -> M unit) : M unit :=
  match xs with
  | [] => ret tt
  | x :: rest => body x ;;; for_each rest body
  end.

(** What the error stream holds once it has received [s]. *)
Definition put_err (s : string) (p : Proc) : Proc :=
  mkProc (stdout p) (stderr p ++ s) (outfile p).

(** [for x in tqdm(xs): body(x)]: the loop, and on the error stream the
    progress bar.  What tqdm writes depends on how many items the loop
    got through (and on timing): [bar done] is all of it for a loop that
    ends, or is left by an exception, after [done] items.  Nothing else
    writes to the error stream meanwhile, so the stream holds it at the
    end whenever it was written. *)
Fixpoint for_each_tqdm {A} (bar : nat -> string) (done : nat) (xs : list A)
    (body : A -> M unit) : M unit :=
  match xs with
  | [] => fun p => (put_err (bar done) p, Ok tt)
  | x :: rest =>
      fun p =>
        match body x p with
        | (p', Ok _) => for_each_tqdm bar (S done) rest body p'
        | (p', Raise e) => (put_err (bar done) p', Raise e)
        end
  end.

(** ** Events and the collaborators *)

Import PyDate PyDateTime.

(** The [.dt] of a [DTSTART] or [DTEND] property. *)
Inductive dtvalue : Type :=
| DateVal (d : date)
| DateTimeVal (dt : datetime).

(** An event of the expansion service: the properties the program
    reads.  The texts are present or not; the service sets [DTSTART]
    and [DTEND] on every event it returns. *)
Record RawEvent := mkEvent {
  SUMMARY : option string;
  LOCATION : option string;
  DESCRIPTION : option string;
  DTSTART : dtvalue;
  DTEND : dtvalue
}.

(** The collaborators of one run, for a type [Cal] of decoded
    calendars. *)
Record World (Cal : Type) := mkWorld {
  (** [Calendar.from_ical] *)
  from_ical : string -> result Cal;
  (** [datetime.now()], naive *)
  now : datetime;
  (** [recurring_ical_events.of(cal).between(start, end)], which raises
      on a calendar it cannot expand (a [KeyError] for an event without
      [DTSTART]) *)
  between : Cal -> datetime -> datetime -> result (list RawEvent);
  (** [bool(BeautifulSoup(text, "html.parser").find())] *)
  has_markup : string -> bool;
  (** [pypandoc.convert_text(text, "org", format="html")] *)
  convert_text : string -> result string;
  (** [pytz.all_timezones] *)
  all_timezones : list string;
  (** [pytz.timezone] *)
  timezone : string -> result tzinfo;
  (** [tzlocal.get_localzone()] *)
  get_localzone : tzinfo;
  (** the offset of the machine's zone at a local wall time, which
      [astimezone] gives a naive [datetime] *)
  local_utcoffset : Z -> Z;
  (** all that [tqdm] writes on the error stream for a loop over [total]
      items that ends, or is left, after [done] of them *)
  tqdm_text : forall (total done : nat), string
}.
Arguments from_ical {Cal} w _.
Arguments now {Cal} w.
Arguments between {Cal} w _ _ _.
Arguments has_markup {Cal} w _.
Arguments convert_text {Cal} w _.
Arguments all_timezones {Cal} w.
Arguments timezone {Cal} w _.
Arguments get_localzone {Cal} w.
Arguments local_utcoffset {Cal} w _.
Arguments tqdm_text {Cal} w _ _.

(** ** The program *)

Section Program.

Context {Cal : Type} (w : World Cal).

(** [org_datetime(dt, tz)] *)
Definition org_datetime (dt : datetime) (tz : tzinfo) : result string :=
  rbind (astimezone (local_utcoffset w) tz dt) (fun r =>
  Ok (strftime_datetime r)).

(** [org_date(d, tz)] *)
Definition org_date (d : date) (tz : tzinfo) : result string :=
  let dt := combine_midnight d in
  rbind (astimezone (local_utcoffset w) tz dt) (fun r =>
  Ok (strftime_date r)).

Record Convertor := mkConvertor {
  tz : tzinfo;
  days : Z;
  include_location : bool
}.

(** [Convertor.__init__] *)
Definition Convertor_init (days : Z) (tz : option string)
    (include_location : bool) : result Convertor :=
  rbind (match tz with
         | Some name => if PyStr.truthy name then timezone w name
                        else Ok (get_localzone w)
         | None => Ok (get_localzone w)
         end) (fun z =>
  Ok (mkConvertor z days include_location)).

(** Lines 72-80: the title. *)
Definition title (self : Convertor) (event : RawEvent) : result string :=
  rbind (getitem "SUMMARY" (SUMMARY event)) (fun summary =>
  let summary := PyStr.replace esc_comma "," summary in
  let location :=
    if PyStr.truthy_opt (LOCATION event)
    then match LOCATION event with
         | Some l => Some (PyStr.replace esc_comma "," l)
         | None => None
         end
    else None in
  if negb (PyStr.truthy summary || PyStr.truthy_opt location)
  then Ok "(No title)"
  else Ok (summary ++
           match location with
           | Some l => if PyStr.truthy l && include_location self
                       then " - " ++ l else EmptyString
           | None => EmptyString
           end)).

(** Lines 83-91: the line of the two stamps.  Both keys are on every
    event, so neither lookup fails. *)
Definition stamps (self : Convertor) (event : RawEvent) : result string :=
  match DTSTART event with
  | DateTimeVal s =>
      rbind (org_datetime s (tz self)) (fun a =>
      rbind (match DTEND event with
             | DateTimeVal e => org_datetime e (tz self)
             | DateVal _ =>
                 Raise (AttributeError
                   "'datetime.date' object has no attribute 'astimezone'")
             end) (fun b =>
      Ok ("  " ++ a ++ "--" ++ b ++ NL)))
  | DateVal s =>
      (* all day event *)
      rbind (org_date s UTC) (fun a =>
      rbind (match DTEND event with
             | DateVal e => date_add_days e (-1)
             | DateTimeVal e =>
                 rbind (add_seconds e (- SECONDS_PER_DAY)) (fun e' =>
                 Ok (dt_date e'))
             end) (fun last =>
      rbind (org_date last UTC) (fun b =>
      Ok ("  " ++ a ++ "--" ++ b ++ NL))))
  end.

(** Lines 94-97: the body text from a non-empty description. *)
Definition body (description : string) : result string :=
  rbind (if has_markup w description then convert_text w description
         else Ok description) (fun description =>
  let description := PyStr.join NL (PyStr.split esc_newline description) in
  let description := PyStr.replace esc_comma "," description in
  Ok description).

(** Lines 72-99: the body of the loop, in the order of its writes. *)
Definition emit (self : Convertor) (fh_w : sink) (event : RawEvent) : M unit :=
  summary <- lift (title self event) ;;
  write fh_w ("* " ++ summary) ;;;
  write fh_w NL ;;;
  line <- lift (stamps self event) ;;
  write fh_w line ;;;
  (if PyStr.truthy_opt (DESCRIPTION event)
   then match DESCRIPTION event with
        | Some description =>
            description <- lift (body description) ;;
            write fh_w (description ++ NL)
        | None => ret tt
        end
   else ret tt) ;;;
  write fh_w NL.

(** Lines 67-69: the window around [now]. *)
Definition window (self : Convertor) : result (datetime * datetime) :=
  rbind (timedelta_days (days self)) (fun delta =>
  rbind (add_seconds (now w) (- delta)) (fun start =>
  rbind (add_seconds (now w) delta) (fun stop =>
  Ok (start, stop)))).

(** [Convertor.__call__(fh, fh_w)], [fh.read()] being [input]. *)
Definition Convertor_call (self : Convertor) (input : string) (fh_w : sink)
  : M unit :=
  cal <- lift (match from_ical w input with
               | Raise (ValueError e) =>
                   Raise (IcalError ("Parsing error: " ++ e))
               | r => r
               end) ;;
  se <- lift (window self) ;;
  events <- lift (between w cal (fst se) (snd se)) ;;
  for_each_tqdm (tqdm_text w (List.length events)) O events (emit self fh_w).

End Program.

(** ** The command line *)

(** [click.IntRange(min, max, clamp).convert] on a parsed integer. *)
Definition IntRange (min max : option Z) (clamp : bool) (rv : Z) : result Z :=
  let lt_min := match min with Some m => rv <? m | None => false end in
  let gt_max := match max with Some m => m <? rv | None => false end in
  if clamp && lt_min then Ok (match min with Some m => m | None => rv end)
  else if clamp && gt_max
       then Ok (match max with Some m => m | None => rv end)
       else if lt_min || gt_max
            then Raise (BadParameter "not in the range")
            else Ok rv.

(** [value in all_timezones] *)
Definition mem (s : string) (l : list string) : bool :=
  existsb (String.eqb s) l.

(** What the command line gives: the flag, the options as typed (absent
    is [None]), the text of [ics_file] and where [org_file] points. *)
Record Args := mkArgs {
  arg_print_timezones : bool;
  arg_days : option Z;
  arg_timezone : option string;
  arg_include_location : bool;
  arg_ics : string;
  arg_org : sink
}.

Section CommandLine.

Context {Cal : Type} (w : World Cal).

(** [check_timezone(ctx, param, value)] *)
Definition check_timezone (value : option string) : M (option string) :=
  match value with
  | None => ret None
  | Some v =>
      if mem v (all_timezones w) then ret (Some v)
      else
        echo ("Invalid timezone value " ++ v ++ ".") ;;;
        echo "Use --print-timezones to show acceptable values." ;;;
        raise (Exit 1)
  end.

(** [print_timezones(ctx, param, value)], outside shell completion. *)
Definition print_timezones (value : bool) : M unit :=
  if negb value then ret tt
  else
    for_each (all_timezones w) echo ;;;
    raise (Exit 0).

(** [main(ics_file, org_file, days, timezone, include_location)] *)
Definition main (ics_file : string) (org_file : sink) (days : Z)
    (timezone : option string) (include_location : bool) : M unit :=
  convertor <- lift (Convertor_init w days timezone include_location) ;;
  fun p =>
    match Convertor_call w convertor ics_file org_file p with
    | (p', Raise (IcalError e)) =>
        (echo_err e ;;; raise Abort) p'
    | r => r
    end.

(** The click command: the eager flag first, then the options, then
    [main]. *)
Definition command (a : Args) : M unit :=
  print_timezones (arg_print_timezones a) ;;;
  days <- lift (IntRange (Some 0) None true
                  (match arg_days a with Some d => d | None => 90 end)) ;;
  timezone <- check_timezone (arg_timezone a) ;;
  main (arg_ics a) (arg_org a) days timezone (arg_include_location a).

(** One run of the process, from untouched streams: what the streams
    hold at the end, and the exit status.  An exception that nothing
    catches ends the process with status 1 (its traceback on the error
    stream is not modelled). *)
Definition run (a : Args) : Proc * Z :=
  match command a fresh with
  | (p, Ok _) => (p, 0)
  | (p, Raise (Exit code)) => (p, code)
  | (p, Raise Abort) =>
      (mkProc (stdout p) (stderr p ++ "Aborted!" ++ NL) (outfile p), 1)
  | (p, Raise (BadParameter _)) => (p, 2)
  | (p, Raise _) => (p, 1)
  end.

End CommandLine.

(** ** Definitions the statements use *)

(** *** Unescaping as the specification words it

    Read once from the left: a backslash followed by [n] is a line
    break, a backslash followed by a comma is a comma, any other
    character stands for itself. *)

Fixpoint unescape_commas (s : string) : string :=
  match s with
  | EmptyString => EmptyString
  | String c r =>
      match r with
      | String c' r' =>
          if Ascii.eqb c backslash && Ascii.eqb c' comma
          then String comma (unescape_commas r')
          else String c (unescape_commas r)
      | EmptyString => String c EmptyString
      end
  end.

Fixpoint unescape_newlines (s : string) : string :=
  match s with
  | EmptyString => EmptyString
  | String c r =>
      match r with
      | String c' r' =>
          if Ascii.eqb c backslash && Ascii.eqb c' "n"
          then String newline (unescape_newlines r')
          else String c (unescape_newlines r)
      | EmptyString => String c EmptyString
      end
  end.

Fixpoint unescape (s : string) : string :=
  match s with
  | EmptyString => EmptyString
  | String c r =>
      match r with
      | String c' r' =>
          if Ascii.eqb c backslash && Ascii.eqb c' "n"
          then String newline (unescape r')
          else if Ascii.eqb c backslash && Ascii.eqb c' comma
               then String comma (unescape r')
               else String c (unescape r)
      | EmptyString => String c EmptyString
      end
  end.

(** *** Calendar tables by leap flag, and ranges to check them on *)

Definition dim (leap : bool) (m : Z) : Z :=
  if (m =? 2) && leap then 29 else tbl DAYS_IN_MONTH m.

Definition dbm (leap : bool) (m : Z) : Z :=
  tbl DAYS_BEFORE_MONTH m + Z.b2z ((m >? 2) && leap).

Definition zrange (lo n : nat) : list Z := map Z.of_nat (seq lo n).

(** [month_day] inverts "days before the month, plus the day". *)
Definition month_day_ok (leap : bool) (m d : Z) : bool :=
  negb (d <=? dim leap m)
  || (let '(m', d') := month_day leap (dbm leap m + d - 1) in
      (m' =? m) && (d' =? d) && (dbm leap m + d - 1 <? 365 + Z.b2z leap)).

(** [month_day] gives a month and a day of that month, which count back
    to the day of the year. *)
Definition yday_ok (leap : bool) (r : Z) : bool :=
  negb (r <? 365 + Z.b2z leap)
  || (let '(m, d) := month_day leap r in
      (1 <=? m) && (m <=? 12) && (1 <=? d) && (d <=? dim leap m)
      && (r =? dbm leap m + d - 1)).

(** A [datetime] as its constructor accepts it. *)
Definition valid_datetime (dt : datetime) : Prop :=
  valid_date (dt_date dt) /\ 0 <= dt_sod dt < SECONDS_PER_DAY.

(** *** The text of one block *)

(** What the sink holds once it has received [s]. *)
Definition put (t : sink) (s : string) (p : Proc) : Proc := fst (write t s p).

Definition puts (t : sink) (l : list string) (p : Proc) : Proc :=
  fold_left (fun p s => put t s p) l p.

Section Blocks.

Context {Cal : Type} (w : World Cal).

(** The body lines of a block: none unless the description is a
    non-empty text. *)
Definition body_lines (event : RawEvent) : result string :=
  match DESCRIPTION event with
  | Some d => if PyStr.truthy d
              then rbind (body w d) (fun x => Ok (x ++ NL))
              else Ok EmptyString
  | None => Ok EmptyString
  end.

(** Heading line, stamp line, body lines, blank line. *)
Definition block (self : Convertor) (event : RawEvent) : result string :=
  rbind (title self event) (fun head =>
  rbind (stamps w self event) (fun line =>
  rbind (body_lines event) (fun b =>
  Ok ("* " ++ head ++ NL ++ line ++ b ++ NL)))).

(** The events the loop runs over. *)
Definition fetch (self : Convertor) (cal : Cal) : result (list RawEvent) :=
  rbind (window w self) (fun se => between w cal (fst se) (snd se)).

End Blocks.

(** *** Sample worlds and events *)

(** A progress bar: a mark for each item done, a dot for each item
    left. *)
Definition sample_bar (total done : nat) : string :=
  "|" ++ String.concat EmptyString (repeat "#" done)
  ++ String.concat EmptyString (repeat "." (total - done)) ++ "|" ++ NL.

(** A machine whose zone is [off] seconds east of UTC.  The decoded
    calendar is the list of its events; a text starting with [<] counts
    as markup, and pandoc is [pandoc]. *)
Definition sample_world (off : Z) (clock : datetime)
    (pandoc : string -> result string) (events : list RawEvent)
  : World (list RawEvent) :=
  mkWorld (list RawEvent)
    (fun s => if PyStr.truthy s then Ok events
              else Raise (ValueError "Content line could not be parsed"))
    clock
    (fun cal _ _ => Ok cal)
    (fun s => PyStr.startswith "<" s)
    pandoc
    ["Europe/Paris"; "UTC"]
    (fun name => if mem name ["UTC"] then Ok UTC
                 else if mem name ["Europe/Paris"] then Ok (fun _ => 3600)
                      else Raise (UnknownTimeZoneError name))
    (fun _ => off)
    (fun _ => off)
    sample_bar.

Definition noon_2024_03_01 : datetime := mkdt (mkdate 2024 3 1) 43200 None.

Definition pandoc_fails : string -> result string :=
  fun _ => Raise (RuntimeError "Pandoc died with exitcode 64").

Definition pandoc_strips : string -> result string :=
  fun s => Ok (PyStr.replace "<p>" EmptyString (PyStr.replace "</p>" EmptyString s)).

(** An all-day event of two days: 1 and 2 March 2024. *)
Definition all_day_event (summary : option string) (description : option string)
  : RawEvent :=
  mkEvent summary None description
    (DateVal (mkdate 2024 3 1)) (DateVal (mkdate 2024 3 3)).

(** The same days with a summary and a location only. *)
Definition titled_event (summary : option string) (location : option string)
  : RawEvent :=
  mkEvent summary location None
    (DateVal (mkdate 2024 3 1)) (DateVal (mkdate 2024 3 3)).

Definition utc_convertor : Convertor := mkConvertor UTC 90 true.

(** The UTC time, in seconds, to which [org_date] takes the midnight of
    [d] before it shows it in the target zone. *)
Definition midnight_instant {Cal : Type} (w : World Cal) (d : date) : Z :=
  dt_seconds (combine_midnight d)
  - local_utcoffset w (dt_seconds (combine_midnight d)).


(** Two all-day events; the second has a description with markup. *)
Definition talk_then_slides : list RawEvent :=
  [ all_day_event (Some "Talk") None;
    all_day_event (Some "Slides") (Some "<p>Deck</p>") ].

(** A machine at UTC on which pandoc fails. *)
Definition w_pandoc_fails : World (list RawEvent) :=
  sample_world 0 noon_2024_03_01 pandoc_fails talk_then_slides.

(** An event without a [SUMMARY] property. *)
Definition untitled_event : RawEvent :=
  mkEvent None (Some "Room 5") None
    (DateVal (mkdate 2024 3 1)) (DateVal (mkdate 2024 3 3)).

(** A machine [off] seconds east of UTC, with a working pandoc. *)
Definition w_at (off : Z) (events : list RawEvent) : World (list RawEvent) :=
  sample_world off noon_2024_03_01 pandoc_strips events.


(** [Room\, 5], with its escaped comma. *)
Definition room_5 : string := "Room" ++ esc_comma ++ " 5".

(** Two escaped lines, the first with an escaped comma. *)
Definition plain_notes : string :=
  "Bring pens" ++ esc_comma ++ " paper" ++ esc_newline ++ "Be early".

(** An all-day event and a timed one, 09:00 to 09:15 at UTC+1. *)
Definition mixed_events : list RawEvent :=
  [ all_day_event (Some "Exam") (Some plain_notes);
    mkEvent (Some "Standup") (Some room_5) (Some "<p>Daily</p>")
      (DateTimeVal (mkdt (mkdate 2024 3 1) 32400 (Some 3600)))
      (DateTimeVal (mkdt (mkdate 2024 3 1) 33300 (Some 3600))) ].

(** An unknown zone name on the command line, the output going to the
    standard output. *)
Definition bad_zone_to_stdout : Args :=
  mkArgs false None (Some "Mars/Base") true "BEGIN:VCALENDAR" SinkStdout.


(** *** Definitions for the further properties *)

(** What an event that fails has written by then: nothing if the title
    fails, the heading line if the stamps fail, the heading and stamp
    lines if the body fails. *)
Definition lines_before_failure {Cal : Type} (w : World Cal)
    (self : Convertor) (event : RawEvent) : list string :=
  match title self event with
  | Raise _ => []
  | Ok head =>
      match stamps w self event with
      | Raise _ => ["* " ++ head ++ NL]
      | Ok line => ["* " ++ head ++ NL ++ line]
      end
  end.

(** [s] has no backslash. *)
Fixpoint plain (s : string) : bool :=
  match s with
  | EmptyString => true
  | String c r => negb (Ascii.eqb c backslash) && plain r
  end.

(** The value [--days] ends up with. *)
Definition days_of (a : Args) : Z :=
  Z.max 0 (match arg_days a with Some d => d | None => 90 end).

(** The zone option names nothing, or a zone of the registry. *)
Definition zone_accepted {Cal : Type} (w : World Cal) (a : Args) : Prop :=
  match arg_timezone a with
  | None => True
  | Some v => mem v (all_timezones w) = true
  end.

(** One line per text. *)
Definition lines (l : list string) : string :=
  String.concat EmptyString (map (fun s => s ++ NL) l).


(** 09:00 on 1 March 2024, one hour east of UTC. *)
Definition nine_oclock_plus_1 : datetime :=
  mkdt (mkdate 2024 3 1) 32400 (Some 3600).

(** A zone one hour east of UTC all year. *)
Definition one_east : tzinfo := fun _ => 3600.

Definition talk_untitled_slides : list RawEvent :=
  [ all_day_event (Some "Talk") None;
    untitled_event;
    all_day_event (Some "Slides") None ].

(** A machine at UTC whose expansion service fails. *)
Definition w_service_fails : World (list RawEvent) :=
  mkWorld (list RawEvent)
    (fun _ => Ok [])
    noon_2024_03_01
    (fun _ _ _ => Raise (KeyError "DTSTART"))
    (fun _ => false)
    pandoc_strips
    ["UTC"]
    (fun _ => Ok UTC)
    UTC
    (fun _ => 0)
    sample_bar.

(** Command lines. *)
Definition list_zones_and_more : Args :=
  mkArgs true (Some (-3)) (Some "Mars/Base") true EmptyString SinkStdout.
Definition empty_input_to_file : Args :=
  mkArgs false None (Some "UTC") true EmptyString SinkFile.
Definition paris_to_file : Args :=
  mkArgs false (Some 30) (Some "Europe/Paris") true "BEGIN:VCALENDAR" SinkFile.
Definition bad_zone_to_file : Args :=
  mkArgs false None (Some "Mars/Base") true "BEGIN:VCALENDAR" SinkFile.

(** A window of a million days, which starts before year 1. *)
Definition million_days : Convertor := mkConvertor UTC 1000000 true.

(** * Facts about the library models *)

(** ** The models on values Python gives *)

Example split_like_python :
  PyStr.split "ab" "xxabyyabab" = ["xx"; "yy"; EmptyString; EmptyString]
  /\ PyStr.join "-" ["xx"; "yy"; EmptyString] = "xx-yy-"
  /\ PyStr.replace "aa" "b" "aaaxaaaa" = "baxbb".
Proof. repeat split; reflexivity. Qed.

Example ordinals_like_python :
  toordinal (mkdate 2024 3 1) = 738946
  /\ fromordinal 738946 = mkdate 2024 3 1
  /\ weekday (mkdate 2024 3 1) = 4
  /\ toordinal (mkdate 9999 12 31) = MAXORDINAL
  /\ fromordinal MAXORDINAL = mkdate 9999 12 31
  /\ fromordinal 1 = mkdate 1 1 1
  /\ fromordinal 146097 = mkdate 400 12 31.
Proof. repeat split; reflexivity. Qed.

Example astimezone_across_new_year :
  rbind (astimezone (fun _ => 0) UTC
           (mkdt (mkdate 2024 12 31) 86399 (Some (-3600))))
        (fun r => Ok (strftime_datetime r))
  = Ok "<2025-01-01 Wed 00:59>".
Proof. reflexivity. Qed.

(** The year is not padded, and a naive midnight on the first day is
    refused. *)
Example org_date_at_the_edges :
  org_date (w_at 0 []) (mkdate 999 12 31) UTC = Ok "<999-12-31 Tue>"
  /\ org_date (w_at 0 []) (mkdate 1 1 1) UTC
     = Raise (ValueError "year 0 is out of range")
  /\ org_date (w_at 0 []) (mkdate 1 1 2) UTC = Ok "<1-01-02 Tue>".
Proof. repeat split; reflexivity. Qed.

(** ** The calendar: ordinals and dates are inverse to each other *)

Lemma is_leap_cases y :
  1 <= y ->
  let Y := y - 1 in
  is_leap y = ((Y mod 4 =? 3) && (negb ((Y mod 100) / 4 =? 24) || ((Y mod 400) / 100 =? 3))).
Proof.
  intros Hy Y. unfold is_leap. subst Y.
  destruct (y mod 4 =? 0) eqn:E4; destruct ((y-1) mod 4 =? 3) eqn:E4'; 
  destruct (y mod 100 =? 0) eqn:E100; destruct ((y-1) mod 100 / 4 =? 24) eqn:E100';
  destruct (y mod 400 =? 0) eqn:E400; destruct ((y-1) mod 400 / 100 =? 3) eqn:E400';
  simpl; try reflexivity; exfalso;
  rewrite ?Z.eqb_eq, ?Z.eqb_neq in *; 
  Z.div_mod_to_equations; lia.
Qed.

Lemma month_day_last : month_day true 365 = (12, 31).
Proof. reflexivity. Qed.

Lemma days_before_year_split y :
  let Y := y - 1 in
  days_before_year y =
  146097 * (Y / 400) + 36524 * ((Y mod 400) / 100) + 1461 * ((Y mod 100) / 4) + 365 * (Y mod 4).
Proof.
  intros Y. unfold days_before_year. fold Y. 
  Z.div_mod_to_equations. lia.
Qed.

Lemma ord2ymd_year y r :
  1 <= y -> 0 <= r < 365 + Z.b2z (is_leap y) ->
  ord2ymd (days_before_year y + r + 1) =
  mkdate y (fst (month_day (is_leap y) r)) (snd (month_day (is_leap y) r)).
Proof.
  intros Hy Hr.
  rewrite is_leap_cases in * by assumption.
  rewrite days_before_year_split. cbv zeta.
  set (Y := y - 1) in *.
  assert (HY : 0 <= Y) by (subst Y; lia).
  set (a := Y / 400). set (b := Y mod 400 / 100) in *. set (c := Y mod 100 / 4) in *.
  set (e := Y mod 4) in *.
  assert (Hb : 0 <= b < 4) by (subst b; Z.div_mod_to_equations; lia).
  assert (Hc : 0 <= c < 25) by (subst c; Z.div_mod_to_equations; lia).
  assert (He : 0 <= e < 4) by (subst e; Z.div_mod_to_equations; lia).
  assert (Hyy : y = 400 * a + 100 * b + 4 * c + e + 1)
    by (subst a b c e Y; Z.div_mod_to_equations; lia).
  clearbody a b c e. clear Y HY.
  unfold ord2ymd, DI400Y, DI100Y, DI4Y.
  replace (146097 * a + 36524 * b + 1461 * c + 365 * e + r + 1 - 1)
    with (146097 * a + (36524 * b + 1461 * c + 365 * e + r)) by lia.
  set (n1 := 36524 * b + 1461 * c + 365 * e + r).
  assert (Hn1 : 0 <= n1 < 146097).
  { subst n1. destruct (e =? 3) eqn:E3; destruct (c =? 24) eqn:E24; destruct (b =? 3) eqn:Eb;
    simpl in Hr; rewrite ?Z.eqb_eq, ?Z.eqb_neq in *; lia. }
  assert (Hq : (146097 * a + n1) / 146097 = a)
    by (symmetry; apply Z.div_unique with n1; lia).
  assert (Hm : (146097 * a + n1) mod 146097 = n1)
    by (symmetry; apply Z.mod_unique with a; lia).
  rewrite Hq, Hm.
  destruct (Z.eq_dec r 365) as [R|R].
  - (* last day of a leap year *)
    assert (L : ((e =? 3) && (negb (c =? 24) || (b =? 3))) = true).
    { destruct ((e =? 3) && (negb (c =? 24) || (b =? 3))); [reflexivity | simpl in Hr; lia]. }
    rewrite L. rewrite R, month_day_last. simpl fst; simpl snd.
    apply andb_true_iff in L. destruct L as [L1 L2].
    apply Z.eqb_eq in L1. apply orb_true_iff in L2.
    destruct (Z.eq_dec c 24) as [C|C].
    + assert (b = 3) by (destruct L2 as [L2|L2]; [apply negb_true_iff in L2; apply Z.eqb_neq in L2; lia | apply Z.eqb_eq in L2; lia]).
      assert (Hn : n1 = 146096) by (subst n1; lia).
      rewrite Hn. change (146096 / 36524) with 4. change (4 =? 4) with true.
      rewrite orb_true_r. change (146096 mod 36524) with 0. change (0 / 1461) with 0.
      change (0 mod 1461) with 0. change (0 / 365) with 0. f_equal. lia.
    + assert (H100 : n1 / 36524 = b) by (symmetry; apply Z.div_unique with (1461 * c + 365 * e + r); subst n1; lia).
      assert (H100m : n1 mod 36524 = 1461 * c + 365 * e + r) by (symmetry; apply Z.mod_unique with b; subst n1; lia).
      rewrite H100, H100m.
      assert (H4 : (1461 * c + 365 * e + r) / 1461 = c) by (symmetry; apply Z.div_unique with (365 * e + r); lia).
      assert (H4m : (1461 * c + 365 * e + r) mod 1461 = 365 * e + r) by (symmetry; apply Z.mod_unique with c; lia).
      rewrite H4, H4m.
      assert (H1 : (365 * e + r) / 365 = 4) by (symmetry; apply Z.div_unique with 0; lia).
      rewrite H1. cbn [Z.eqb orb]. simpl. f_equal. lia.
  - assert (Hr' : 0 <= r < 365) by (destruct ((e =? 3) && (negb (c =? 24) || (b =? 3))); simpl in Hr; lia).
    assert (H100 : n1 / 36524 = b) by (symmetry; apply Z.div_unique with (1461 * c + 365 * e + r); subst n1; lia).
    assert (H100m : n1 mod 36524 = 1461 * c + 365 * e + r) by (symmetry; apply Z.mod_unique with b; subst n1; lia).
    rewrite H100, H100m.
    assert (H4 : (1461 * c + 365 * e + r) / 1461 = c) by (symmetry; apply Z.div_unique with (365 * e + r); lia).
    assert (H4m : (1461 * c + 365 * e + r) mod 1461 = 365 * e + r) by (symmetry; apply Z.mod_unique with c; lia).
    rewrite H4, H4m.
    assert (H1 : (365 * e + r) / 365 = e) by (symmetry; apply Z.div_unique with r; lia).
    assert (H1m : (365 * e + r) mod 365 = r) by (symmetry; apply Z.mod_unique with e; lia).
    rewrite H1, H1m.
    replace (e =? 4) with false by (symmetry; apply Z.eqb_neq; lia).
    replace (b =? 4) with false by (symmetry; apply Z.eqb_neq; lia).
    cbn [orb].
    destruct (month_day _ r) as [m d]. simpl. f_equal. lia.
Qed.

Lemma in_zrange lo n z :
  Z.of_nat lo <= z < Z.of_nat (lo + n) -> In z (zrange lo n).
Proof.
  intros H. unfold zrange. apply in_map_iff. exists (Z.to_nat z). split.
  - lia.
  - apply in_seq. lia.
Qed.

Lemma month_day_table :
  forallb (fun leap =>
    forallb (fun m => forallb (month_day_ok leap m) (zrange 1 31)) (zrange 1 12))
    [true; false] = true.
Proof. vm_compute. reflexivity. Qed.

Lemma month_day_spec leap m d :
  1 <= m <= 12 -> 1 <= d <= dim leap m ->
  month_day leap (dbm leap m + d - 1) = (m, d)
  /\ 0 <= dbm leap m + d - 1 < 365 + Z.b2z leap.
Proof.
  intros Hm Hd.
  assert (Hd31 : d <= 31).
  { assert (dim leap m <= 31); [| lia].
    assert (Hin : In m (zrange 1 12)) by (apply in_zrange; lia).
    revert Hin. generalize m. apply Forall_forall.
    destruct leap; repeat constructor; discriminate. }
  pose proof month_day_table as T.
  rewrite forallb_forall in T.
  assert (Hl : In leap [true; false]) by (destruct leap; simpl; auto).
  specialize (T leap Hl). rewrite forallb_forall in T.
  specialize (T m (in_zrange 1 12 m ltac:(lia))).
  rewrite forallb_forall in T.
  specialize (T d (in_zrange 1 31 d ltac:(lia))).
  unfold month_day_ok in T.
  replace (d <=? dim leap m) with true in T by (symmetry; apply Z.leb_le; lia).
  cbn [negb orb] in T. destruct (month_day leap (dbm leap m + d - 1)) as [m' d'].
  apply andb_true_iff in T. destruct T as [T T3].
  apply andb_true_iff in T. destruct T as [T1 T2].
  apply Z.eqb_eq in T1, T2. apply Z.ltb_lt in T3. subst. split; [reflexivity|].
  split; [|lia].
  assert (0 <= dbm leap m); [|lia].
  assert (Hin : In m (zrange 1 12)) by (apply in_zrange; lia).
  revert Hin. generalize m. apply Forall_forall.
  destruct leap; repeat constructor; discriminate.
Qed.

Theorem ord2ymd_toordinal d :
  1 <= year d -> 1 <= month d <= 12 ->
  1 <= day d <= days_in_month (year d) (month d) ->
  ord2ymd (toordinal d) = d.
Proof.
  destruct d as [y m dd]. simpl. intros Hy Hm Hd.
  unfold toordinal, ymd2ord. simpl.
  change (days_before_month y m) with (dbm (is_leap y) m).
  change (days_in_month y m) with (dim (is_leap y) m) in Hd.
  destruct (month_day_spec (is_leap y) m dd Hm Hd) as [E R].
  replace (days_before_year y + dbm (is_leap y) m + dd)
    with (days_before_year y + (dbm (is_leap y) m + dd - 1) + 1) by lia.
  rewrite ord2ymd_year by assumption.
  rewrite E. reflexivity.
Qed.

Lemma days_before_year_succ y :
  1 <= y ->
  days_before_year (y + 1) = days_before_year y + 365 + Z.b2z (is_leap y).
Proof.
  intros Hy. unfold days_before_year, is_leap. cbv zeta.
  replace (y + 1 - 1) with y by lia.
  destruct (y mod 4 =? 0) eqn:E4; destruct (y mod 100 =? 0) eqn:E100;
  destruct (y mod 400 =? 0) eqn:E400; cbn [andb orb negb Z.b2z];
  rewrite ?Z.eqb_eq, ?Z.eqb_neq in *; Z.div_mod_to_equations; lia.
Qed.

Lemma ordinal_decompose n :
  1 <= n ->
  exists y r, 1 <= y /\ 0 <= r < 365 + Z.b2z (is_leap y)
              /\ n = days_before_year y + r + 1.
Proof.
  intros Hn. pattern n. apply Zlt_lower_bound_ind with (z := 1); [|assumption].
  clear n Hn. intros n IH Hn.
  destruct (Z.eq_dec n 1) as [->|Hne].
  - exists 1, 0. repeat split; try lia; destruct (is_leap 1); simpl; lia.
  - destruct (IH (n - 1) ltac:(lia)) as (y & r & Hy & Hr & E).
    destruct (Z_lt_dec (r + 1) (365 + Z.b2z (is_leap y))) as [L|L].
    + exists y, (r + 1). repeat split; lia.
    + exists (y + 1), 0. split; [lia|]. split.
      * destruct (is_leap (y + 1)); simpl; lia.
      * rewrite days_before_year_succ by assumption. lia.
Qed.

Lemma yday_table :
  forallb (fun leap => forallb (yday_ok leap) (zrange 0 366)) [true; false] = true.
Proof. vm_compute. reflexivity. Qed.

Lemma yday_decompose leap r :
  0 <= r < 365 + Z.b2z leap ->
  exists m d, 1 <= m <= 12 /\ 1 <= d <= dim leap m /\ r = dbm leap m + d - 1.
Proof.
  intros Hr. pose proof yday_table as T.
  rewrite forallb_forall in T.
  assert (Hl : In leap [true; false]) by (destruct leap; simpl; auto).
  specialize (T leap Hl). rewrite forallb_forall in T.
  assert (Hin : In r (zrange 0 366))
    by (apply in_zrange; destruct leap; simpl in Hr; lia).
  specialize (T r Hin). unfold yday_ok in T.
  replace (r <? 365 + Z.b2z leap) with true in T by (symmetry; apply Z.ltb_lt; lia).
  cbn [negb orb] in T. destruct (month_day leap r) as [m d].
  rewrite !andb_true_iff in T. destruct T as ((((T1 & T2) & T3) & T4) & T5).
  exists m, d. rewrite ?Z.leb_le in *. apply Z.eqb_eq in T5. lia.
Qed.

Theorem toordinal_ord2ymd n :
  1 <= n ->
  toordinal (ord2ymd n) = n
  /\ 1 <= year (ord2ymd n) /\ 1 <= month (ord2ymd n) <= 12
  /\ 1 <= day (ord2ymd n)
          <= days_in_month (year (ord2ymd n)) (month (ord2ymd n)).
Proof.
  intros Hn.
  destruct (ordinal_decompose n Hn) as (y & r & Hy & Hr & E).
  destruct (yday_decompose _ r Hr) as (m & d & Hm & Hd & Er).
  assert (En : n = toordinal (mkdate y m d)).
  { unfold toordinal, ymd2ord. simpl.
    change (days_before_month y m) with (dbm (is_leap y) m). lia. }
  rewrite En. rewrite ord2ymd_toordinal by (simpl; assumption).
  simpl. auto.
Qed.

Lemma days_before_year_mono y1 y2 :
  1 <= y1 <= y2 -> days_before_year y1 <= days_before_year y2.
Proof.
  intros [H1 H2]. pattern y2.
  apply Zlt_lower_bound_ind with (z := y1); [|exact H2].
  intros y IH Hy.
  destruct (Z.eq_dec y y1) as [->|Hne]; [lia|].
  specialize (IH (y - 1) ltac:(lia)).
  replace y with (y - 1 + 1) by lia.
  rewrite days_before_year_succ by lia.
  destruct (is_leap (y - 1)); simpl; lia.
Qed.

Lemma toordinal_bounds d :
  valid_date d -> 1 <= toordinal d <= MAXORDINAL.
Proof.
  destruct d as [y m dd]. unfold valid_date, MINYEAR, MAXYEAR. simpl.
  intros (Hy & Hm & Hd).
  unfold toordinal, ymd2ord. simpl.
  change (days_before_month y m) with (dbm (is_leap y) m).
  change (days_in_month y m) with (dim (is_leap y) m) in Hd.
  destruct (month_day_spec (is_leap y) m dd Hm Hd) as [_ R].
  pose proof (days_before_year_mono 1 y ltac:(lia)) as L.
  pose proof (days_before_year_mono (y + 1) 10000 ltac:(lia)) as U.
  rewrite days_before_year_succ in U by lia.
  change (days_before_year 1) with 0 in L.
  change (days_before_year 10000) with 3652059 in U.
  unfold MAXORDINAL. lia.
Qed.

Lemma toordinal_year2 d :
  valid_date d -> 2 <= year d -> 366 <= toordinal d.
Proof.
  destruct d as [y m dd]. unfold valid_date, MINYEAR, MAXYEAR. simpl.
  intros (Hy & Hm & Hd) H2.
  unfold toordinal, ymd2ord. simpl.
  change (days_before_month y m) with (dbm (is_leap y) m).
  change (days_in_month y m) with (dim (is_leap y) m) in Hd.
  destruct (month_day_spec (is_leap y) m dd Hm Hd) as [_ R].
  pose proof (days_before_year_mono 2 y ltac:(lia)) as L.
  change (days_before_year 2) with 365 in L. lia.
Qed.

Lemma fromordinal_toordinal d : valid_date d -> fromordinal (toordinal d) = d.
Proof.
  intros (Hy & Hm & Hd). unfold MINYEAR in Hy.
  apply ord2ymd_toordinal; [lia | assumption | assumption].
Qed.

(** Adding seconds, when the day stays in range. *)
Lemma add_seconds_ok dt k :
  0 < (dt_seconds dt + k) / SECONDS_PER_DAY <= MAXORDINAL ->
  exists r, add_seconds dt k = Ok r
    /\ dt_seconds r = dt_seconds dt + k
    /\ dt_date r = fromordinal ((dt_seconds dt + k) / SECONDS_PER_DAY)
    /\ dt_sod r = (dt_seconds dt + k) mod SECONDS_PER_DAY
    /\ dt_utcoffset r = dt_utcoffset dt.
Proof.
  intros H. unfold add_seconds.
  replace ((0 <? (dt_seconds dt + k) / SECONDS_PER_DAY)
           && ((dt_seconds dt + k) / SECONDS_PER_DAY <=? MAXORDINAL)) with true
    by (symmetry; apply andb_true_iff; rewrite Z.ltb_lt, Z.leb_le; lia).
  eexists. split; [reflexivity|]. 
  split; [|repeat split].
  unfold dt_seconds at 1. cbn [dt_date dt_sod].
  destruct (toordinal_ord2ymd ((dt_seconds dt + k) / SECONDS_PER_DAY) ltac:(lia)) as [E _].
  unfold fromordinal. rewrite E.
  unfold SECONDS_PER_DAY in *.
  pose proof (Z.div_mod (dt_seconds dt + k) 86400 ltac:(lia)). lia.
Qed.

Lemma toordinal_fromordinal n : 1 <= n -> toordinal (fromordinal n) = n.
Proof. intros H. apply (toordinal_ord2ymd n H). Qed.

Lemma toordinal_before_9999 d :
  valid_date d -> year d <= 9998 -> toordinal d <= MAXORDINAL - 365.
Proof.
  destruct d as [y m dd]. unfold valid_date, MINYEAR, MAXYEAR. simpl.
  intros (Hy & Hm & Hd) H2.
  unfold toordinal, ymd2ord. simpl.
  change (days_before_month y m) with (dbm (is_leap y) m).
  change (days_in_month y m) with (dim (is_leap y) m) in Hd.
  destruct (month_day_spec (is_leap y) m dd Hm Hd) as [_ R].
  pose proof (days_before_year_mono (y + 1) 9999 ltac:(lia)) as U.
  rewrite days_before_year_succ in U by lia.
  change (days_before_year 9999) with 3651694 in U.
  unfold MAXORDINAL. lia.
Qed.

(** A naive value from the second day on, whose local reading stays in
    the calendar, gets the offset of the machine's zone. *)
Lemma naive_utcoffset_ok local dt :
  FIRST_SECOND + SECONDS_PER_DAY <= dt_seconds dt ->
  FIRST_SECOND <= dt_seconds dt + local (dt_seconds dt) < END_SECOND ->
  naive_utcoffset local dt = Ok (local (dt_seconds dt)).
Proof.
  intros H1 H2. unfold naive_utcoffset.
  replace (dt_seconds dt + local (dt_seconds dt) <? FIRST_SECOND) with false
    by (symmetry; apply Z.ltb_ge; lia).
  replace (dt_seconds dt - SECONDS_PER_DAY <? FIRST_SECOND) with false
    by (symmetry; apply Z.ltb_ge; lia).
  replace (END_SECOND <=? dt_seconds dt + local (dt_seconds dt)) with false
    by (symmetry; apply Z.leb_gt; lia).
  reflexivity.
Qed.

(** A naive value on the first day is refused. *)
Lemma naive_utcoffset_first_day local dt :
  dt_seconds dt < FIRST_SECOND + SECONDS_PER_DAY ->
  naive_utcoffset local dt = Raise (ValueError "year 0 is out of range").
Proof.
  intros H. unfold naive_utcoffset.
  replace (dt_seconds dt - SECONDS_PER_DAY <? FIRST_SECOND) with true
    by (symmetry; apply Z.ltb_lt; lia).
  rewrite orb_true_r. reflexivity.
Qed.

(** [astimezone] keeps the instant: the result is the wall clock, at the
    offset the target zone has there, of the UTC time of [dt]. *)
Lemma astimezone_instant local tz dt off0 :
  match dt_utcoffset dt with
  | Some o => Ok o
  | None => naive_utcoffset local dt
  end = Ok off0 ->
  let u := dt_seconds dt - off0 in
  0 < u / SECONDS_PER_DAY <= MAXORDINAL ->
  0 < (u + tz u) / SECONDS_PER_DAY <= MAXORDINAL ->
  astimezone local tz dt
  = Ok (mkdt (fromordinal ((u + tz u) / SECONDS_PER_DAY))
          ((u + tz u) mod SECONDS_PER_DAY) (Some (tz u))).
Proof.
  intros Ho u Hu Huo. unfold astimezone. rewrite Ho. cbn [rbind].
  destruct (add_seconds_ok dt (- off0)) as (utc & E1 & S1 & _).
  { replace (dt_seconds dt + - off0) with u by (unfold u; lia). exact Hu. }
  rewrite E1. cbn [rbind].
  replace (dt_seconds dt + - off0) with u in S1 by (unfold u; lia).
  rewrite S1.
  destruct (add_seconds_ok utc (tz u)) as (r & E2 & _ & D2 & T2 & _).
  { rewrite S1. exact Huo. }
  rewrite E2. cbn [rbind]. rewrite D2, T2, S1. reflexivity.
Qed.

Section OrgDate.
Context {Cal : Type} (w : World Cal).

(** [org_date] shows the day on which the instant of the midnight of
    [d] falls in the target zone. *)
Lemma org_date_instant d tz :
  2 <= toordinal d <= MAXORDINAL ->
  let u := midnight_instant w d in
  - SECONDS_PER_DAY < u - dt_seconds (combine_midnight d) < SECONDS_PER_DAY ->
  0 < (u + tz u) / SECONDS_PER_DAY <= MAXORDINAL ->
  org_date w d tz
  = Ok ("<" ++ fmt_Ymd_a (fromordinal ((u + tz u) / SECONDS_PER_DAY)) ++ ">").
Proof.
  intros Hd u Hlo Hk. unfold org_date.
  set (wall := dt_seconds (combine_midnight d)) in *.
  assert (Hw : wall = toordinal d * SECONDS_PER_DAY)
    by (unfold wall, dt_seconds, combine_midnight; cbn; lia).
  assert (Hu : u = wall - local_utcoffset w wall) by reflexivity.
  assert (Hn : naive_utcoffset (local_utcoffset w) (combine_midnight d)
               = Ok (local_utcoffset w wall)).
  { apply naive_utcoffset_ok; fold wall;
      unfold FIRST_SECOND, END_SECOND, SECONDS_PER_DAY in *; lia. }
  rewrite (astimezone_instant (local_utcoffset w) tz (combine_midnight d)
             (local_utcoffset w wall)).
  - reflexivity.
  - exact Hn.
  - fold wall. rewrite <- Hu. unfold SECONDS_PER_DAY in *.
    assert (toordinal d - 1 <= u / 86400 <= toordinal d).
    { split; [apply Z.div_le_lower_bound
             | apply Z.lt_succ_r; apply Z.div_lt_upper_bound]; lia. }
    lia.
  - fold wall. rewrite <- Hu. exact Hk.
Qed.

(** The same in whole days: the day shown is [d] moved by as many days
    as the offset of the target zone is ahead of the one midnight is
    read with. *)
Lemma org_date_shift d tz :
  2 <= toordinal d <= MAXORDINAL ->
  let wall := dt_seconds (combine_midnight d) in
  let lo := local_utcoffset w wall in
  let k := (tz (wall - lo) - lo) / SECONDS_PER_DAY in
  - SECONDS_PER_DAY < lo < SECONDS_PER_DAY ->
  0 < toordinal d + k <= MAXORDINAL ->
  org_date w d tz
  = Ok ("<" ++ fmt_Ymd_a (fromordinal (toordinal d + k)) ++ ">").
Proof.
  intros Hd wall lo k Hlo Hk.
  assert (Hw : wall = toordinal d * SECONDS_PER_DAY)
    by (unfold wall, dt_seconds, combine_midnight; cbn; lia).
  assert (Hq : (midnight_instant w d + tz (midnight_instant w d))
               / SECONDS_PER_DAY = toordinal d + k).
  { unfold midnight_instant. fold wall. fold lo. unfold k. rewrite Hw.
    replace (toordinal d * SECONDS_PER_DAY - lo
             + tz (toordinal d * SECONDS_PER_DAY - lo))
      with (toordinal d * SECONDS_PER_DAY
            + (tz (toordinal d * SECONDS_PER_DAY - lo) - lo)) by lia.
    rewrite Z.add_comm. rewrite Z.div_add by (unfold SECONDS_PER_DAY; lia).
    lia. }
  rewrite <- Hq. apply org_date_instant.
  - exact Hd.
  - unfold midnight_instant. fold wall. fold lo. lia.
  - rewrite Hq. exact Hk.
Qed.

End OrgDate.

(** ** Strings: the program's two calls are the one-pass unescaping *)

Lemma string_ind2 (P : string -> Prop) :
  P EmptyString ->
  (forall c, P (String c EmptyString)) ->
  (forall c c' r, P r -> P (String c' r) -> P (String c (String c' r))) ->
  forall s, P s.
Proof.
  intros H0 H1 H2 s.
  assert (H : P s /\ forall c, P (String c s)).
  { induction s as [|c' r [IH1 IH2]].
    - split; [exact H0 | exact H1].
    - split; [apply IH2 | intros c; apply H2; [exact IH1 | apply IH2]]. }
  apply H.
Qed.

Lemma replace2_hit a b new r :
  PyStr.replace (String a (String b EmptyString)) new (String a (String b r))
  = new ++ PyStr.replace (String a (String b EmptyString)) new r.
Proof.
  unfold PyStr.replace. cbn [PyStr.replace_from PyStr.startswith].
  rewrite !Ascii.eqb_refl. cbn [andb String.length Nat.pred].
  destruct r; reflexivity.
Qed.

Lemma replace2_miss a b new c r :
  PyStr.startswith (String a (String b EmptyString)) (String c r) = false ->
  PyStr.replace (String a (String b EmptyString)) new (String c r)
  = String c (PyStr.replace (String a (String b EmptyString)) new r).
Proof.
  intros H. unfold PyStr.replace. cbn [PyStr.replace_from]. rewrite H. reflexivity.
Qed.

Lemma replace_esc_comma s :
  PyStr.replace esc_comma "," s = unescape_commas s.
Proof.
  induction s as [|c|c c' r IH1 IH2] using string_ind2.
  - reflexivity.
  - unfold PyStr.replace, esc_comma. cbn [PyStr.replace_from PyStr.startswith].
    rewrite andb_false_r. reflexivity.
  - cbn [unescape_commas].
    destruct (Ascii.eqb c backslash && Ascii.eqb c' comma) eqn:E.
    + apply andb_true_iff in E. destruct E as [E1 E2].
      apply Ascii.eqb_eq in E1, E2. subst c c'.
      unfold esc_comma. change "," with (String comma EmptyString).
      rewrite replace2_hit. cbn [append]. f_equal. exact IH1.
    + unfold esc_comma. change "," with (String comma EmptyString).
      rewrite replace2_miss.
      * f_equal. exact IH2.
      * cbn [PyStr.startswith]. rewrite andb_true_r.
        rewrite (Ascii.eqb_sym backslash c), (Ascii.eqb_sym comma c'). exact E.
Qed.

Lemma append_nil_r s : s ++ EmptyString = s.
Proof. induction s; cbn; [reflexivity | f_equal; assumption]. Qed.

Lemma append_assoc (a b c : string) : (a ++ b) ++ c = a ++ b ++ c.
Proof. induction a; cbn; [reflexivity | f_equal; assumption]. Qed.

Lemma split_from_nonempty sep k cur s : PyStr.split_from sep k cur s <> [].
Proof.
  revert k cur. induction s as [|c s IH]; intros k cur; cbn.
  - discriminate.
  - destruct k; [|apply IH].
    destruct (PyStr.startswith sep (String c s)); [discriminate | apply IH].
Qed.

Lemma join_cons sep p rest :
  rest <> [] -> PyStr.join sep (p :: rest) = p ++ sep ++ PyStr.join sep rest.
Proof. destruct rest; [congruence | reflexivity]. Qed.

Lemma split_from_miss sep cur c s :
  PyStr.startswith sep (String c s) = false ->
  PyStr.split_from sep 0 cur (String c s)
  = PyStr.split_from sep 0 (cur ++ String c EmptyString) s.
Proof. intros H. cbn [PyStr.split_from]. rewrite H. reflexivity. Qed.

Lemma split_from_hit2 a b cur r :
  PyStr.split_from (String a (String b EmptyString)) 0 cur (String a (String b r))
  = cur :: PyStr.split_from (String a (String b EmptyString)) 0 EmptyString r.
Proof.
  cbn [PyStr.split_from PyStr.startswith].
  rewrite !Ascii.eqb_refl. cbn [andb String.length Nat.pred]. reflexivity.
Qed.

Lemma join_split_from cur s :
  PyStr.join NL (PyStr.split_from esc_newline 0 cur s)
  = cur ++ unescape_newlines s.
Proof.
  revert cur. induction s as [|c|c c' r IH1 IH2] using string_ind2; intros cur.
  - cbn. symmetry. apply append_nil_r.
  - unfold esc_newline. cbn [PyStr.split_from PyStr.startswith].
    rewrite andb_false_r. cbn [PyStr.join unescape_newlines]. reflexivity.
  - cbn [unescape_newlines].
    destruct (Ascii.eqb c backslash && Ascii.eqb c' "n") eqn:E.
    + apply andb_true_iff in E. destruct E as [E1 E2].
      apply Ascii.eqb_eq in E1, E2. subst c c'.
      unfold esc_newline. rewrite split_from_hit2.
      rewrite join_cons by apply split_from_nonempty.
      fold esc_newline. rewrite IH1. reflexivity.
    + rewrite split_from_miss.
      * rewrite IH2. rewrite append_assoc. reflexivity.
      * unfold esc_newline. cbn [PyStr.startswith]. rewrite andb_true_r.
        rewrite (Ascii.eqb_sym backslash c), (Ascii.eqb_sym "n" c'). exact E.
Qed.

Lemma join_split_esc_newline s :
  PyStr.join NL (PyStr.split esc_newline s) = unescape_newlines s.
Proof. unfold PyStr.split. apply join_split_from. Qed.

(** The head of a string is a comma after newlines are unescaped just when it
    was one before. *)
Lemma unescape_newlines_head c r :
  exists c0 r0, unescape_newlines (String c r) = String c0 r0
    /\ (Ascii.eqb c0 comma = Ascii.eqb c comma)
    /\ (Ascii.eqb c backslash = false -> c0 = c /\ r0 = unescape_newlines r).
Proof.
  cbn [unescape_newlines]. destruct r as [|c' r'].
  - exists c, EmptyString. auto.
  - destruct (Ascii.eqb c backslash && Ascii.eqb c' "n") eqn:E.
    + apply andb_true_iff in E. destruct E as [E1 E2]. apply Ascii.eqb_eq in E1. subst c.
      exists newline, (unescape_newlines r'). split; [reflexivity|].
      split; [reflexivity|]. rewrite Ascii.eqb_refl. discriminate.
    + exists c, (unescape_newlines (String c' r')). auto.
Qed.

Lemma unescape_newlines_cons2 c c' r :
  unescape_newlines (String c (String c' r))
  = if Ascii.eqb c backslash && Ascii.eqb c' "n"
    then String newline (unescape_newlines r)
    else String c (unescape_newlines (String c' r)).
Proof. reflexivity. Qed.

Lemma unescape_commas_cons2 c c' r :
  unescape_commas (String c (String c' r))
  = if Ascii.eqb c backslash && Ascii.eqb c' comma
    then String comma (unescape_commas r)
    else String c (unescape_commas (String c' r)).
Proof. reflexivity. Qed.

Lemma unescape_cons2 c c' r :
  unescape (String c (String c' r))
  = if Ascii.eqb c backslash && Ascii.eqb c' "n"
    then String newline (unescape r)
    else if Ascii.eqb c backslash && Ascii.eqb c' comma
         then String comma (unescape r)
         else String c (unescape (String c' r)).
Proof. reflexivity. Qed.

Lemma unescape_commas_skip c s :
  Ascii.eqb c backslash = false ->
  unescape_commas (String c s) = String c (unescape_commas s).
Proof.
  intros H. destruct s as [|c' r]; [reflexivity|].
  rewrite unescape_commas_cons2, H. reflexivity.
Qed.

Lemma unescape_two_steps s :
  unescape_commas (unescape_newlines s) = unescape s.
Proof.
  induction s as [|c|c c' r IH1 IH2] using string_ind2.
  - reflexivity.
  - reflexivity.
  - rewrite unescape_cons2, unescape_newlines_cons2.
    destruct (Ascii.eqb c backslash) eqn:Ec; cbn [andb].
    + destruct (Ascii.eqb c' "n") eqn:En.
      * (* backslash n *)
        rewrite unescape_commas_skip by reflexivity. rewrite IH1. reflexivity.
      * destruct (unescape_newlines_head c' r) as (c0 & r0 & E0 & Ecm & Hn).
        rewrite E0, unescape_commas_cons2, Ec, Ecm. cbn [andb].
        destruct (Ascii.eqb c' comma) eqn:Ecm'.
        -- (* backslash comma *)
           apply Ascii.eqb_eq in Ecm'. subst c'.
           destruct (Hn eq_refl) as [_ Hr0]. subst r0. rewrite IH1. reflexivity.
        -- rewrite <- E0, IH2. reflexivity.
    + rewrite unescape_commas_skip by assumption. rewrite IH2. reflexivity.
Qed.

Theorem body_text_unescape s :
  PyStr.replace esc_comma "," (PyStr.join NL (PyStr.split esc_newline s))
  = unescape s.
Proof.
  rewrite join_split_esc_newline, replace_esc_comma. apply unescape_two_steps.
Qed.

(** * Facts about the engine *)

(** ** Writes add up *)

Lemma put_put t a b p : put t b (put t a p) = put t (a ++ b) p.
Proof.
  destruct t; unfold put, write; cbn; rewrite append_assoc; reflexivity.
Qed.

Lemma write_put t s p : write t s p = (put t s p, Ok tt).
Proof. destruct t; reflexivity. Qed.

Lemma sink_bytes_put t s p : sink_bytes t (put t s p) = sink_bytes t p ++ s.
Proof. destruct t; reflexivity. Qed.

Lemma sink_bytes_put_err t s p : sink_bytes t (put_err s p) = sink_bytes t p.
Proof. destruct t; reflexivity. Qed.

Lemma puts_app t l1 l2 p : puts t (l1 ++ l2)%list p = puts t l2 (puts t l1 p).
Proof. unfold puts. apply fold_left_app. Qed.

Lemma sink_bytes_puts t l p :
  sink_bytes t (puts t l p) = sink_bytes t p ++ String.concat EmptyString l.
Proof.
  revert p. induction l as [|s l IH]; intros p; cbn.
  - symmetry. apply append_nil_r.
  - unfold puts in IH. rewrite IH, sink_bytes_put, append_assoc.
    destruct l; [cbn; rewrite append_nil_r|]; reflexivity.
Qed.

Section Engine.
Context {Cal : Type} (w : World Cal).

Lemma bind_lift_ok {A B} (r : result A) (a : A) (k : A -> M B) p :
  r = Ok a -> (x <- lift r ;; k x) p = k a p.
Proof. intros ->. reflexivity. Qed.

Lemma bind_lift_raise {A B} (r : result A) e (k : A -> M B) p :
  r = Raise e -> (x <- lift r ;; k x) p = (p, Raise e).
Proof. intros ->. reflexivity. Qed.

Lemma bind_write {B} t s (k : unit -> M B) p :
  bind (write t s) k p = k tt (put t s p).
Proof. unfold bind. rewrite write_put. reflexivity. Qed.

(** An event that renders to [b] appends [b] to the sink. *)
Lemma emit_ok self t event b p :
  block w self event = Ok b ->
  emit w self t event p = (put t b p, Ok tt).
Proof.
  unfold block, emit. 
  destruct (title self event) as [head|e] eqn:Et; [|discriminate].
  destruct (stamps w self event) as [line|e] eqn:Es; [|discriminate].
  cbn [rbind]. unfold body_lines.
  rewrite (bind_lift_ok _ head) by reflexivity.
  rewrite !bind_write.
  rewrite (bind_lift_ok _ line) by reflexivity.
  rewrite bind_write. rewrite !put_put.
  destruct (DESCRIPTION event) as [d|]; cbn [PyStr.truthy_opt].
  - destruct (PyStr.truthy d).
    + destruct (body w d) as [x|e] eqn:Eb; [|discriminate].
      cbn [rbind]. intros H. injection H as <-.
      unfold bind at 1. rewrite (bind_lift_ok _ x) by reflexivity.
      rewrite !write_put, !put_put.
      f_equal. f_equal. cbn. rewrite !append_assoc. reflexivity.
    + cbn [rbind]. intros H. injection H as <-.
      unfold bind, ret. rewrite write_put, put_put. 
      f_equal. f_equal. cbn. rewrite !append_assoc. reflexivity.
  - cbn [rbind]. intros H. injection H as <-.
    unfold bind, ret. rewrite write_put, put_put.
    f_equal. f_equal. cbn. rewrite !append_assoc. reflexivity.
Qed.

(** A loop whose events all render writes their blocks, and the bar
    of a loop that got through all of them. *)
Lemma loop_all_ok bar k self t events bs p :
  Forall2 (fun ev b => block w self ev = Ok b) events bs ->
  for_each_tqdm bar k events (emit w self t) p
  = (put_err (bar (k + List.length events)%nat) (puts t bs p), Ok tt).
Proof.
  intros H. revert k p. induction H as [|ev b events bs Hb _ IH]; intros k p.
  - cbn [for_each_tqdm List.length]. rewrite Nat.add_0_r. reflexivity.
  - cbn [for_each_tqdm List.length]. rewrite (emit_ok _ _ _ b) by assumption.
    rewrite IH. rewrite Nat.add_succ_r. reflexivity.
Qed.

(** A loop ends at its first failing event: with the blocks before it,
    what that event wrote, and the bar of a loop left there. *)
Lemma loop_first_failure bar k self t pre ev post bs l e p :
  Forall2 (fun ev b => block w self ev = Ok b) pre bs ->
  (forall q, emit w self t ev q = (puts t l q, Raise e)) ->
  for_each_tqdm bar k (pre ++ ev :: post)%list (emit w self t) p
  = (put_err (bar (k + List.length pre)%nat) (puts t (bs ++ l)%list p), Raise e).
Proof.
  intros H He. revert k p. induction H as [|x b pre bs Hb _ IH]; intros k p.
  - cbn [for_each_tqdm List.length app]. rewrite He, Nat.add_0_r. reflexivity.
  - cbn [for_each_tqdm List.length app]. rewrite (emit_ok _ _ _ b) by assumption.
    rewrite IH. rewrite Nat.add_succ_r. reflexivity.
Qed.

End Engine.
(** ** Where a run can stop *)

Section EngineRuns.
Context {Cal : Type} (w : World Cal).

Lemma Convertor_call_fetch self input t p :
  Convertor_call w self input t p
  = (cal <- lift (match from_ical w input with
                  | Raise (ValueError e) =>
                      Raise (IcalError ("Parsing error: " ++ e))
                  | r => r
                  end) ;;
     events <- lift (fetch w self cal) ;;
     for_each_tqdm (tqdm_text w (List.length events)) O events
       (emit w self t)) p.
Proof.
  unfold Convertor_call, fetch, bind, lift.
  destruct (match from_ical w input with
            | Raise (ValueError e) => _ | r => r end) as [cal|e]; [|reflexivity].
  destruct (window w self) as [se|e]; reflexivity.
Qed.

(** A failing decoder stops the run before anything is written. *)
Lemma decode_error_run self input t p e :
  from_ical w input = Raise e ->
  Convertor_call w self input t p
  = (p, Raise (match e with
               | ValueError m => IcalError ("Parsing error: " ++ m)
               | _ => e
               end)).
Proof.
  intros H. unfold Convertor_call, bind, lift. rewrite H.
  destruct e; reflexivity.
Qed.

(** A failing converter stops the event after its heading and stamps. *)
Lemma emit_conversion_error self t event head line d e p :
  title self event = Ok head ->
  stamps w self event = Ok line ->
  DESCRIPTION event = Some d -> d <> EmptyString ->
  has_markup w d = true -> convert_text w d = Raise e ->
  emit w self t event p = (put t ("* " ++ head ++ NL ++ line) p, Raise e).
Proof.
  intros Ht Hs Hd Hne Hm Hc. unfold emit.
  rewrite (bind_lift_ok _ head) by assumption.
  rewrite !bind_write.
  rewrite (bind_lift_ok _ line) by assumption.
  rewrite bind_write, !put_put. rewrite Hd.
  assert (Tr : PyStr.truthy d = true) by (destruct d; [congruence | reflexivity]).
  cbn [PyStr.truthy_opt]. rewrite Tr.
  unfold bind at 1. 
  assert (Hb : body w d = Raise e) by (unfold body; rewrite Hm, Hc; reflexivity).
  rewrite (bind_lift_raise _ e) by assumption.
  f_equal; f_equal; cbn; rewrite ?append_assoc; reflexivity.
Qed.

End EngineRuns.

(** ** The title *)

(** The title needs the [SUMMARY] key. *)
Lemma title_missing_summary self event :
  SUMMARY event = None -> title self event = Raise (KeyError "SUMMARY").
Proof. intros H. unfold title. rewrite H. reflexivity. Qed.

(** With a summary the title is always a text. *)
Lemma title_total self event s :
  SUMMARY event = Some s -> exists head, title self event = Ok head.
Proof.
  intros H. unfold title. rewrite H. cbn [getitem rbind].
  match goal with |- exists _, (if ?c then _ else _) = _ => destruct c end;
    eexists; reflexivity.
Qed.

Lemma truthy_nonempty s : s <> EmptyString -> PyStr.truthy s = true.
Proof. destruct s; [congruence | reflexivity]. Qed.

Lemma unescape_commas_nonempty s :
  s <> EmptyString -> PyStr.truthy (unescape_commas s) = true.
Proof.
  destruct s as [|c [|c' r]]; [congruence | reflexivity |].
  intros _. rewrite unescape_commas_cons2.
  destruct (Ascii.eqb c backslash && Ascii.eqb c' comma); reflexivity.
Qed.

(** ** The body *)

Lemma body_unescape {Cal : Type} (w : World Cal) d :
  body w d = rbind (if has_markup w d then convert_text w d else Ok d)
               (fun x => Ok (unescape x)).
Proof.
  unfold body. destruct (if has_markup w d then convert_text w d else Ok d);
    cbn [rbind]; [rewrite body_text_unescape|]; reflexivity.
Qed.

(** ** The command line *)



(** What an unknown zone name does to the process. *)
Lemma invalid_timezone_run {Cal : Type} (w : World Cal) (a : Args) (v : string) :
  arg_print_timezones a = false ->
  arg_timezone a = Some v ->
  mem v (all_timezones w) = false ->
  run w a
  = (mkProc ("Invalid timezone value " ++ v ++ "." ++ NL
             ++ "Use --print-timezones to show acceptable values." ++ NL)
       EmptyString None, 1).
Proof.
  intros Hp Ht Hm. unfold run, command. rewrite Hp, Ht.
  cbn [print_timezones negb]. unfold bind at 1. cbn [ret].
  unfold bind at 1.
  destruct (lift (IntRange (Some 0) None true
                    match arg_days a with Some d => d | None => 90 end) fresh)
    as [p [days|e]] eqn:E.
  - unfold lift in E. injection E as <- _.
    unfold bind at 1. unfold check_timezone. rewrite Hm.
    unfold bind, echo, raise. cbn [stdout stderr outfile fresh].
    rewrite !append_assoc. reflexivity.
  - exfalso. unfold lift, IntRange in E.
    destruct (match arg_days a with Some d => d | None => 90 end <? 0);
      cbn in E; discriminate.
Qed.

(** * The properties of the specification, C1 to C10 *)

(** ** C1: what a fatal error leaves in the sink *)

(** C1, as claimed, would have every failing run leave the sink empty.
    Here pandoc fails on the second of two events: the run ends in
    pandoc's error, and the sink holds the whole block of the first
    event and the heading and stamp lines of the second. *)
Lemma C1_conversion_error_after_output :
  convert_text w_pandoc_fails "<p>Deck</p>"
    = Raise (RuntimeError "Pandoc died with exitcode 64")
  /\ exists p,
       Convertor_call w_pandoc_fails utc_convertor "BEGIN:VCALENDAR"
         SinkFile fresh
       = (p, Raise (RuntimeError "Pandoc died with exitcode 64"))
       /\ sink_bytes SinkFile p
          = "* Talk" ++ NL ++ "  <2024-03-01 Fri>--<2024-03-02 Sat>" ++ NL ++ NL
            ++ "* Slides" ++ NL ++ "  <2024-03-01 Fri>--<2024-03-02 Sat>" ++ NL
       /\ sink_bytes SinkFile p <> EmptyString.
Proof.
  split; [reflexivity|]. eexists. split; [vm_compute; reflexivity|].
  split; [reflexivity | discriminate].
Qed.

(** C1, amended: a run whose decoding fails raises without touching the
    process (nothing is written; a [ValueError] is turned into the
    [IcalError] with the message [Parsing error: ...]).  A run in which
    the converter fails on the body of an event raises the converter's
    error unchanged after the sink has received the blocks of all the
    events before it and the heading and stamp lines of that event:
    the output is written as the loop goes, and is not taken back. *)
Theorem C1_abort_points {Cal : Type} (w : World Cal) (self : Convertor)
    (input : string) (t : sink) (p : Proc) :
  (forall e, from_ical w input = Raise e ->
     exists e', Convertor_call w self input t p = (p, Raise e')
       /\ forall m, e = ValueError m ->
                    e' = IcalError ("Parsing error: " ++ m))
  /\
  (forall (cal : Cal) (pre : list RawEvent) (event : RawEvent)
          (post : list RawEvent) (bs : list string) (head line d : string)
          (e : exn),
     from_ical w input = Ok cal ->
     fetch w self cal = Ok (pre ++ event :: post)%list ->
     Forall2 (fun ev b => block w self ev = Ok b) pre bs ->
     title self event = Ok head ->
     stamps w self event = Ok line ->
     DESCRIPTION event = Some d -> d <> EmptyString ->
     has_markup w d = true -> convert_text w d = Raise e ->
     exists p', Convertor_call w self input t p = (p', Raise e)
       /\ sink_bytes t p'
          = sink_bytes t p ++ String.concat EmptyString bs
            ++ "* " ++ head ++ NL ++ line).
Proof.
  split.
  - intros e He. eexists. split; [apply decode_error_run; exact He|].
    intros m ->. reflexivity.
  - intros cal pre event post bs head line d e Hc Hf Hpre Ht Hs Hd Hne Hm Hx.
    rewrite Convertor_call_fetch. rewrite Hc.
    rewrite (bind_lift_ok _ cal) by reflexivity.
    rewrite (bind_lift_ok _ (pre ++ event :: post)%list) by assumption.
    rewrite (loop_first_failure w _ O self t pre event post bs
               ["* " ++ head ++ NL ++ line] e)
      by (try assumption; intros q;
          apply (emit_conversion_error w self t event head line d e);
          assumption).
    eexists. split; [reflexivity|].
    rewrite sink_bytes_put_err, puts_app.
    change (puts t ["* " ++ head ++ NL ++ line] (puts t bs p))
      with (put t ("* " ++ head ++ NL ++ line) (puts t bs p)).
    rewrite sink_bytes_put, sink_bytes_puts, append_assoc. reflexivity.
Qed.

Lemma C1_abort_points_witness :
  (exists e', Convertor_call w_pandoc_fails utc_convertor EmptyString
                SinkFile fresh
              = (fresh, Raise e')
     /\ forall m, ValueError "Content line could not be parsed" = ValueError m ->
                  e' = IcalError ("Parsing error: " ++ m))
  /\ (exists p, Convertor_call w_pandoc_fails utc_convertor "BEGIN:VCALENDAR"
                  SinkFile fresh
                = (p, Raise (RuntimeError "Pandoc died with exitcode 64"))
       /\ sink_bytes SinkFile p
          = sink_bytes SinkFile fresh
            ++ String.concat EmptyString
                 ["* Talk" ++ NL ++ "  <2024-03-01 Fri>--<2024-03-02 Sat>"
                  ++ NL ++ NL]
            ++ "* " ++ "Slides" ++ NL
            ++ ("  <2024-03-01 Fri>--<2024-03-02 Sat>" ++ NL)).
Proof.
  split.
  - apply (proj1 (C1_abort_points w_pandoc_fails utc_convertor EmptyString
                    SinkFile fresh)
             (ValueError "Content line could not be parsed")).
    reflexivity.
  - apply (proj2 (C1_abort_points w_pandoc_fails utc_convertor
                    "BEGIN:VCALENDAR" SinkFile fresh)
             talk_then_slides [all_day_event (Some "Talk") None]
             (all_day_event (Some "Slides") (Some "<p>Deck</p>")) []
             ["* Talk" ++ NL ++ "  <2024-03-01 Fri>--<2024-03-02 Sat>"
              ++ NL ++ NL]
             "Slides" ("  <2024-03-01 Fri>--<2024-03-02 Sat>" ++ NL)
             "<p>Deck</p>").
    + reflexivity.
    + reflexivity.
    + constructor; [reflexivity | constructor].
    + reflexivity.
    + reflexivity.
    + reflexivity.
    + discriminate.
    + reflexivity.
    + reflexivity.
Defined.

(** ** C2: an event without a summary *)

(** C2 says that deriving the title never raises, also when [SUMMARY]
    is absent.  The program reads [event["SUMMARY"]]: for the event
    without that key the title is a [KeyError], the event writes
    nothing, and the run over a calendar holding it ends in that
    error with an empty sink: the progress bar, on the error stream, is
    all that was written. *)
Theorem C2_absent_summary_raises :
  SUMMARY untitled_event = None
  /\ title utc_convertor untitled_event = Raise (KeyError "SUMMARY")
  /\ emit (w_at 0 [untitled_event]) utc_convertor SinkFile untitled_event fresh
     = (fresh, Raise (KeyError "SUMMARY"))
  /\ Convertor_call (w_at 0 [untitled_event]) utc_convertor "BEGIN:VCALENDAR"
       SinkFile fresh
     = (put_err (tqdm_text (w_at 0 [untitled_event]) 1 0) fresh,
        Raise (KeyError "SUMMARY"))
  /\ sink_bytes SinkFile
       (fst (Convertor_call (w_at 0 [untitled_event]) utc_convertor
               "BEGIN:VCALENDAR" SinkFile fresh))
     = EmptyString.
Proof.
  split; [reflexivity|]. split; [apply title_missing_summary; reflexivity|].
  split; [reflexivity|]. split; reflexivity.
Qed.

(** ** C3: the stamps of an all-day event *)

(** C3 says that an all-day event from 2024-03-01 to 2024-03-03
    (exclusive) is stamped [<2024-03-01 Fri>--<2024-03-02 Sat>].  It is
    on a machine whose zone is UTC; on a machine one hour east of UTC
    the naive midnights are read as local times, and both stamps fall on
    the day before. *)
Theorem C3_all_day_stamps_follow_machine_zone :
  stamps (w_at 0 []) utc_convertor (all_day_event (Some "Fair") None)
    = Ok ("  <2024-03-01 Fri>--<2024-03-02 Sat>" ++ NL)
  /\ stamps (w_at 3600 []) utc_convertor (all_day_event (Some "Fair") None)
    = Ok ("  <2024-02-29 Thu>--<2024-03-01 Fri>" ++ NL).
Proof. split; vm_compute; reflexivity. Qed.

(** ** C4: [org_date] and the target zone *)




(** ** C5: the body *)

(** C5: an event with a description [d], whose title and stamps are
    [head] and [line], writes its heading, its stamp line, its body and
    a blank line.  Without markup the body is [d] with every
    backslash-n turned into a line break and every backslash-comma into
    a comma; with markup it is the converter's output, unescaped in the
    same way.  (An empty description is no body at all.) *)
Theorem C5_body_rendering {Cal : Type} (w : World Cal) (self : Convertor)
    (t : sink) (event : RawEvent) (d head line : string) (p : Proc) :
  DESCRIPTION event = Some d ->
  title self event = Ok head ->
  stamps w self event = Ok line ->
  (has_markup w d = false ->
   emit w self t event p
   = (put t ("* " ++ head ++ NL ++ line
             ++ (if PyStr.truthy d then unescape d ++ NL else EmptyString)
             ++ NL) p,
      Ok tt))
  /\
  (has_markup w d = true ->
   forall x, convert_text w d = Ok x ->
   emit w self t event p
   = (put t ("* " ++ head ++ NL ++ line
             ++ (if PyStr.truthy d then unescape x ++ NL else EmptyString)
             ++ NL) p,
      Ok tt)).
Proof.
  intros Hd Ht Hs.
  assert (G : forall x,
     (if has_markup w d then convert_text w d else Ok d) = Ok x ->
     emit w self t event p
     = (put t ("* " ++ head ++ NL ++ line
               ++ (if PyStr.truthy d then unescape x ++ NL else EmptyString)
               ++ NL) p,
        Ok tt)).
  { intros x Hx. apply emit_ok. unfold block, body_lines.
    rewrite Ht, Hs, Hd. cbn [rbind].
    destruct (PyStr.truthy d); [|reflexivity].
    rewrite body_unescape, Hx. reflexivity. }
  split.
  - intros Hm. apply G. rewrite Hm. reflexivity.
  - intros Hm x Hx. apply G. rewrite Hm. exact Hx.
Qed.

Lemma C5_body_rendering_witness :
  emit (w_at 0 []) utc_convertor SinkFile
    (all_day_event (Some "Exam") (Some plain_notes)) fresh
  = (put SinkFile ("* Exam" ++ NL ++ "  <2024-03-01 Fri>--<2024-03-02 Sat>" ++ NL
                   ++ "Bring pens, paper" ++ NL ++ "Be early" ++ NL ++ NL) fresh,
     Ok tt)
  /\
  emit (w_at 0 []) utc_convertor SinkFile
    (all_day_event (Some "Exam") (Some "<p>Room 5</p>")) fresh
  = (put SinkFile ("* Exam" ++ NL ++ "  <2024-03-01 Fri>--<2024-03-02 Sat>" ++ NL
                   ++ "Room 5" ++ NL ++ NL) fresh,
     Ok tt).
Proof.
  split.
  - apply (proj1 (C5_body_rendering (w_at 0 []) utc_convertor SinkFile
                    (all_day_event (Some "Exam") (Some plain_notes))
                    plain_notes "Exam"
                    ("  <2024-03-01 Fri>--<2024-03-02 Sat>" ++ NL) fresh
                    eq_refl eq_refl eq_refl)).
    reflexivity.
  - apply (proj2 (C5_body_rendering (w_at 0 []) utc_convertor SinkFile
                    (all_day_event (Some "Exam") (Some "<p>Room 5</p>"))
                    "<p>Room 5</p>" "Exam"
                    ("  <2024-03-01 Fri>--<2024-03-02 Sat>" ++ NL) fresh
                    eq_refl eq_refl eq_refl) eq_refl "Room 5").
    reflexivity.
Defined.

(** ** C6: an unknown zone name *)

(** C6 says that an unknown zone name ends the process with a non-zero
    status and zero bytes in the output sink.  The status is 1 and no
    conversion starts, but the two messages are printed on the standard
    output: when [org_file] is [-] the standard output is the sink, and
    the sink receives them. *)
Theorem C6_invalid_timezone_message_reaches_stdout_sink :
  mem "Mars/Base" (all_timezones (w_at 0 mixed_events)) = false
  /\ run (w_at 0 mixed_events) bad_zone_to_stdout
     = (mkProc ("Invalid timezone value Mars/Base." ++ NL
                ++ "Use --print-timezones to show acceptable values." ++ NL)
          EmptyString None, 1)
  /\ sink_bytes (arg_org bad_zone_to_stdout)
       (fst (run (w_at 0 mixed_events) bad_zone_to_stdout))
     = "Invalid timezone value Mars/Base." ++ NL
       ++ "Use --print-timezones to show acceptable values." ++ NL.
Proof.
  split; [reflexivity|]. split.
  - apply (invalid_timezone_run _ _ "Mars/Base"); reflexivity.
  - reflexivity.
Qed.

(** ** C7: the placeholder title *)



(** ** C8: the location in the title *)

(** C8: with a non-empty [SUMMARY], a non-empty [LOCATION] and
    [include_location] set, the title is the summary, [" - "] and the
    location, each with every backslash-comma turned into a comma. *)
Theorem C8_location_suffix (self : Convertor) (event : RawEvent)
    (s l : string) :
  SUMMARY event = Some s -> s <> EmptyString ->
  LOCATION event = Some l -> l <> EmptyString ->
  include_location self = true ->
  title self event = Ok (unescape_commas s ++ " - " ++ unescape_commas l).
Proof.
  intros Hs Hsn Hl Hln Hi. unfold title. rewrite Hs, Hl, Hi.
  cbn [getitem rbind PyStr.truthy_opt].
  rewrite (truthy_nonempty l Hln). rewrite !replace_esc_comma.
  cbn [PyStr.truthy_opt].
  rewrite (unescape_commas_nonempty s Hsn), (unescape_commas_nonempty l Hln).
  reflexivity.
Qed.

(** The example of the claim: [Standup] in [Room\, 5]. *)
Lemma C8_location_suffix_witness :
  title utc_convertor (titled_event (Some "Standup") (Some room_5))
  = Ok "Standup - Room, 5".
Proof.
  apply (C8_location_suffix utc_convertor
           (titled_event (Some "Standup") (Some room_5))
           "Standup" room_5);
    solve [reflexivity | discriminate].
Defined.

(** ** C10: a negative [--days] *)



(** * Further properties of the program *)

(** ** More of the calendar and of [astimezone] *)

Lemma add_seconds_days dt k :
  valid_datetime dt ->
  0 < toordinal (dt_date dt) + k <= MAXORDINAL ->
  add_seconds dt (k * SECONDS_PER_DAY)
  = Ok (mkdt (fromordinal (toordinal (dt_date dt) + k)) (dt_sod dt)
          (dt_utcoffset dt)).
Proof.
  intros [Hd Hs] Hk. unfold add_seconds, dt_seconds, SECONDS_PER_DAY in *.
  assert (Hq : (toordinal (dt_date dt) * 86400 + dt_sod dt + k * 86400) / 86400
               = toordinal (dt_date dt) + k)
    by (symmetry; apply Z.div_unique with (dt_sod dt); lia).
  assert (Hr : (toordinal (dt_date dt) * 86400 + dt_sod dt + k * 86400) mod 86400
               = dt_sod dt)
    by (symmetry; apply Z.mod_unique with (toordinal (dt_date dt) + k); lia).
  rewrite Hq, Hr.
  replace ((0 <? toordinal (dt_date dt) + k)
           && (toordinal (dt_date dt) + k <=? MAXORDINAL))
    with true by (symmetry; apply andb_true_iff; rewrite Z.ltb_lt, Z.leb_le; lia).
  reflexivity.
Qed.

Lemma add_seconds_days_overflow dt k :
  valid_datetime dt ->
  toordinal (dt_date dt) + k <= 0 \/ MAXORDINAL < toordinal (dt_date dt) + k ->
  add_seconds dt (k * SECONDS_PER_DAY)
  = Raise (OverflowError "date value out of range").
Proof.
  intros [Hd Hs] Hk. unfold add_seconds, dt_seconds, SECONDS_PER_DAY in *.
  assert (Hq : (toordinal (dt_date dt) * 86400 + dt_sod dt + k * 86400) / 86400
               = toordinal (dt_date dt) + k)
    by (symmetry; apply Z.div_unique with (dt_sod dt); lia).
  rewrite Hq.
  replace ((0 <? toordinal (dt_date dt) + k)
           && (toordinal (dt_date dt) + k <=? MAXORDINAL))
    with false; [reflexivity|].
  symmetry. apply andb_false_iff. rewrite Z.ltb_ge, Z.leb_gt. lia.
Qed.

Lemma length_append (a b : string) :
  String.length (a ++ b) = (String.length a + String.length b)%nat.
Proof. induction a; cbn; [reflexivity | f_equal; assumption]. Qed.

Lemma length_day_abbr d : String.length (day_abbr (weekday d)) = 3%nat.
Proof.
  unfold weekday.
  assert (H : 0 <= (toordinal d + 6) mod 7 < 7) by (apply Z.mod_pos_bound; lia).
  set (wd := (toordinal d + 6) mod 7) in *.
  assert (C : wd = 0 \/ wd = 1 \/ wd = 2 \/ wd = 3 \/ wd = 4 \/ wd = 5 \/ wd = 6)
    by lia.
  destruct C as [->|[->|[->|[->|[->|[->| ->]]]]]]; reflexivity.
Qed.

Lemma length_fmt_Y y : 1000 <= y -> String.length (fmt_Y y) = 4%nat.
Proof.
  intros H. unfold fmt_Y.
  replace (y <? 10) with false by (symmetry; apply Z.ltb_ge; lia).
  replace (y <? 100) with false by (symmetry; apply Z.ltb_ge; lia).
  replace (y <? 1000) with false by (symmetry; apply Z.ltb_ge; lia).
  reflexivity.
Qed.

Lemma length_fmt_Ymd_a d :
  1000 <= year d -> String.length (fmt_Ymd_a d) = 14%nat.
Proof.
  intros H. unfold fmt_Ymd_a.
  rewrite !length_append, length_day_abbr, (length_fmt_Y _ H). reflexivity.
Qed.

(** The days from 1000-01-01 on are of the years from 1000 on. *)
Lemma year_fromordinal_1000 n :
  364878 <= n -> 1000 <= year (fromordinal n).
Proof.
  intros Hn.
  destruct (toordinal_ord2ymd n ltac:(lia)) as (E & Hy & Hm & Hd).
  fold (fromordinal n) in *. destruct (fromordinal n) as [y m dd].
  cbn [year month day] in *.
  destruct (Z_lt_dec y 1000) as [Hlt|]; [exfalso | lia].
  unfold toordinal, ymd2ord in E. cbn [year month day] in E.
  change (days_before_month y m) with (dbm (is_leap y) m) in E.
  change (days_in_month y m) with (dim (is_leap y) m) in Hd.
  destruct (month_day_spec (is_leap y) m dd Hm Hd) as [_ R].
  pose proof (days_before_year_mono (y + 1) 1000 ltac:(lia)) as U.
  rewrite days_before_year_succ in U by lia.
  change (days_before_year 1000) with 364877 in U. lia.
Qed.

(** The days of the years from 1001 on. *)
Lemma toordinal_from_1001 d :
  valid_date d -> 1001 <= year d -> 365243 <= toordinal d.
Proof.
  destruct d as [y m dd]. unfold valid_date, MINYEAR, MAXYEAR. simpl.
  intros (Hy & Hm & Hd) H2.
  unfold toordinal, ymd2ord. simpl.
  change (days_before_month y m) with (dbm (is_leap y) m).
  change (days_in_month y m) with (dim (is_leap y) m) in Hd.
  destruct (month_day_spec (is_leap y) m dd Hm Hd) as [_ R].
  pose proof (days_before_year_mono 1001 y ltac:(lia)) as L.
  change (days_before_year 1001) with 365242 in L. lia.
Qed.

(** ** More of the engine *)

Lemma stdout_put_file s p : stdout (put SinkFile s p) = stdout p.
Proof. reflexivity. Qed.




Lemma concat_cons x l :
  String.concat EmptyString (x :: l) = x ++ String.concat EmptyString l.
Proof. destruct l; cbn; rewrite ?append_nil_r; reflexivity. Qed.

Lemma lines_cons s l : lines (s :: l) = (s ++ NL) ++ lines l.
Proof. unfold lines. cbn [map]. apply concat_cons. Qed.

Lemma IntRange_clamp_max v : IntRange (Some 0) None true v = Ok (Z.max 0 v).
Proof.
  unfold IntRange. destruct (v <? 0) eqn:E; cbn [andb orb].
  - apply Z.ltb_lt in E. f_equal. lia.
  - apply Z.ltb_ge in E. f_equal. lia.
Qed.

Lemma unescape_commas_plain s : plain s = true -> unescape_commas s = s.
Proof.
  induction s as [|c|c c' r IH1 IH2] using string_ind2; intros H;
    [reflexivity | reflexivity |].
  cbn [plain] in H. apply andb_true_iff in H. destruct H as [Hc H].
  apply negb_true_iff in Hc.
  rewrite unescape_commas_cons2, Hc. cbn [andb].
  rewrite IH2 by exact H. reflexivity.
Qed.

Lemma unescape_plain s : plain s = true -> unescape s = s.
Proof.
  induction s as [|c|c c' r IH1 IH2] using string_ind2; intros H;
    [reflexivity | reflexivity |].
  cbn [plain] in H. apply andb_true_iff in H. destruct H as [Hc H].
  apply negb_true_iff in Hc.
  rewrite unescape_cons2, Hc. cbn [andb].
  rewrite IH2 by exact H. reflexivity.
Qed.

Section MoreEngine.
Context {Cal : Type} (w : World Cal).

(** [org_datetime] of an aware value: the wall clock, in the target
    zone, of the same instant. *)
Lemma org_datetime_instant (dt : datetime) (tz : tzinfo) (off : Z) :
  dt_utcoffset dt = Some off ->
  valid_datetime dt -> 2 <= year (dt_date dt) <= 9998 ->
  let u := dt_seconds dt - off in
  - SECONDS_PER_DAY < off < SECONDS_PER_DAY ->
  - SECONDS_PER_DAY < tz u < SECONDS_PER_DAY ->
  org_datetime w dt tz
  = Ok (strftime_datetime
          (mkdt (fromordinal ((u + tz u) / SECONDS_PER_DAY))
             ((u + tz u) mod SECONDS_PER_DAY) (Some (tz u)))).
Proof.
  intros Ho [Vd Vs] Hy u Hoff Htz.
  pose proof (toordinal_year2 _ Vd ltac:(lia)) as L.
  pose proof (toordinal_before_9999 _ Vd ltac:(lia)) as U.
  unfold org_datetime.
  pose proof (astimezone_instant (local_utcoffset w) tz dt off) as A.
  rewrite Ho in A. specialize (A eq_refl). cbn zeta in A. fold u in A.
  unfold MAXORDINAL, SECONDS_PER_DAY in *.
  assert (Hu : toordinal (dt_date dt) - 1 <= u / 86400
               <= toordinal (dt_date dt) + 1).
  { unfold u, dt_seconds, SECONDS_PER_DAY.
    split; [apply Z.div_le_lower_bound
           | apply Z.lt_succ_r; apply Z.div_lt_upper_bound]; lia. }
  assert (Huo : toordinal (dt_date dt) - 2 <= (u + tz u) / 86400
                <= toordinal (dt_date dt) + 2).
  { unfold u, dt_seconds, SECONDS_PER_DAY in *.
    split; [apply Z.div_le_lower_bound
           | apply Z.lt_succ_r; apply Z.div_lt_upper_bound]; lia. }
  rewrite A by lia. reflexivity.
Qed.

(** An event that fails raises its error after the lines before the
    failing step. *)
Lemma emit_failure self t event e p :
  block w self event = Raise e ->
  emit w self t event p
  = (puts t (lines_before_failure w self event) p, Raise e).
Proof.
  unfold block, emit, lines_before_failure.
  destruct (title self event) as [head|e1] eqn:Et.
  - rewrite (bind_lift_ok _ head) by reflexivity. rewrite !bind_write.
    cbn [rbind].
    destruct (stamps w self event) as [line|e2] eqn:Es.
    + rewrite (bind_lift_ok _ line) by reflexivity. rewrite bind_write.
      rewrite !put_put. cbn [rbind]. unfold body_lines.
      destruct (DESCRIPTION event) as [d|]; [|discriminate].
      cbn [PyStr.truthy_opt].
      destruct (PyStr.truthy d); [|discriminate].
      destruct (body w d) as [x|e3] eqn:Eb; [discriminate|].
      cbn [rbind]. intros H. injection H as <-.
      unfold bind at 1. rewrite (bind_lift_raise _ e3) by reflexivity.
      cbn [puts fold_left].
      f_equal; f_equal; cbn; rewrite ?append_assoc; reflexivity.
    + cbn [rbind]. intros H. injection H as <-.
      rewrite (bind_lift_raise _ e2) by reflexivity.
      rewrite put_put. reflexivity.
  - cbn [rbind]. intros H. injection H as <-.
    rewrite (bind_lift_raise _ e1) by reflexivity. reflexivity.
Qed.


(** A run whose events all render writes their blocks. *)
Lemma call_all_ok self input t p cal events bs :
  from_ical w input = Ok cal ->
  fetch w self cal = Ok events ->
  Forall2 (fun ev b => block w self ev = Ok b) events bs ->
  Convertor_call w self input t p
  = (put_err (tqdm_text w (List.length events) (List.length events))
       (puts t bs p), Ok tt).
Proof.
  intros Hc Hf Hb.
  rewrite Convertor_call_fetch, Hc.
  rewrite (bind_lift_ok _ cal) by reflexivity.
  rewrite (bind_lift_ok _ events) by assumption.
  rewrite (loop_all_ok w _ O self t events bs) by exact Hb.
  reflexivity.
Qed.



Lemma for_each_echo l p :
  for_each l echo p
  = (mkProc (stdout p ++ lines l) (stderr p) (outfile p), Ok tt).
Proof.
  revert p. induction l as [|s l IH]; intros p.
  - cbn. rewrite append_nil_r. destruct p; reflexivity.
  - cbn [for_each]. unfold bind. unfold echo at 1. rewrite IH.
    cbn [stdout stderr outfile]. rewrite lines_cons, !append_assoc.
    reflexivity.
Qed.

(** With the flag off and the zone accepted, the command is [main]
    with the clamped days. *)
Lemma command_main a p :
  arg_print_timezones a = false -> zone_accepted w a ->
  command w a p
  = main w (arg_ics a) (arg_org a) (days_of a) (arg_timezone a)
      (arg_include_location a) p.
Proof.
  intros Hp Hz. unfold command, print_timezones. rewrite Hp. cbn [negb].
  unfold bind at 1. cbn [ret].
  rewrite IntRange_clamp_max.
  rewrite (bind_lift_ok _ (days_of a)) by reflexivity.
  unfold zone_accepted in Hz. unfold check_timezone, bind.
  destruct (arg_timezone a) as [v|]; [rewrite Hz|]; reflexivity.
Qed.

End MoreEngine.

(** ** The properties, X1 to X18 *)

(** *** The two formatters *)

(** X1: on a machine whose zone is at or west of UTC (offset in
    (-24h, 0]), an all-day event from [s], a day after 0001-01-01, to
    [e] (exclusive, [s] before [e]) is stamped with [s] and with the day
    before [e]. *)
Theorem X1_all_day_stamps_at_or_west_of_utc {Cal : Type} (w : World Cal)
    (self : Convertor) (event : RawEvent) (s e : date) :
  DTSTART event = DateVal s ->
  DTEND event = DateVal e ->
  valid_date s -> valid_date e -> 1 < toordinal s < toordinal e ->
  (forall z, - SECONDS_PER_DAY < local_utcoffset w z <= 0) ->
  stamps w self event
  = Ok ("  " ++ ("<" ++ fmt_Ymd_a s ++ ">") ++ "--"
        ++ ("<" ++ fmt_Ymd_a (fromordinal (toordinal e - 1)) ++ ">") ++ NL).
Proof.
  intros Hs He Vs Ve Hlt Hlo.
  pose proof (toordinal_bounds s Vs) as Bs.
  pose proof (toordinal_bounds e Ve) as Be.
  assert (G : forall d, 2 <= toordinal d <= MAXORDINAL ->
            org_date w d UTC
            = Ok ("<" ++ fmt_Ymd_a (fromordinal (toordinal d)) ++ ">")).
  { intros d Bd.
    pose proof (org_date_shift w d UTC Bd) as A. cbn zeta in A.
    set (wall := dt_seconds (combine_midnight d)) in *.
    specialize (Hlo wall).
    change (UTC (wall - local_utcoffset w wall)) with 0 in A.
    unfold SECONDS_PER_DAY in *.
    assert (Hk : (0 - local_utcoffset w wall) / 86400 = 0)
      by (apply Z.div_small; lia).
    rewrite Hk, Z.add_0_r in A. apply A; lia. }
  unfold stamps. rewrite Hs, He.
  rewrite (G s) by lia. rewrite fromordinal_toordinal by assumption.
  cbn [rbind]. unfold date_add_days.
  replace ((0 <? toordinal e + -1) && (toordinal e + -1 <=? MAXORDINAL))
    with true
    by (symmetry; apply andb_true_iff; rewrite Z.ltb_lt, Z.leb_le; lia).
  cbn [rbind].
  rewrite G by (rewrite toordinal_fromordinal; lia).
  rewrite toordinal_fromordinal by lia. cbn [rbind].
  replace (toordinal e + -1) with (toordinal e - 1) by lia. reflexivity.
Qed.

Lemma X1_all_day_stamps_at_or_west_of_utc_witness :
  stamps (w_at (-28800) []) utc_convertor (all_day_event (Some "Fair") None)
  = Ok ("  <2024-03-01 Fri>--<2024-03-02 Sat>" ++ NL).
Proof.
  apply (X1_all_day_stamps_at_or_west_of_utc (w_at (-28800) []) utc_convertor
           (all_day_event (Some "Fair") None) (mkdate 2024 3 1) (mkdate 2024 3 3)).
  - reflexivity.
  - reflexivity.
  - vm_compute. intuition discriminate.
  - vm_compute. intuition discriminate.
  - vm_compute. split; reflexivity.
  - intros z. vm_compute. intuition discriminate.
Defined.

(** X2: on a machine whose zone is east of UTC (offset in (0, 24h)),
    the same event is stamped one day early on both sides: with the day
    before [s] and with the second day before [e]. *)
Theorem X2_all_day_stamps_east_of_utc {Cal : Type} (w : World Cal)
    (self : Convertor) (event : RawEvent) (s e : date) :
  DTSTART event = DateVal s ->
  DTEND event = DateVal e ->
  valid_date s -> valid_date e -> 1 < toordinal s < toordinal e ->
  (forall z, 0 < local_utcoffset w z < SECONDS_PER_DAY) ->
  stamps w self event
  = Ok ("  " ++ ("<" ++ fmt_Ymd_a (fromordinal (toordinal s - 1)) ++ ">")
        ++ "--"
        ++ ("<" ++ fmt_Ymd_a (fromordinal (toordinal e - 2)) ++ ">") ++ NL).
Proof.
  intros Hs He Vs Ve Hlt Hlo.
  pose proof (toordinal_bounds s Vs) as Bs.
  pose proof (toordinal_bounds e Ve) as Be.
  assert (G : forall d, 2 <= toordinal d <= MAXORDINAL ->
            org_date w d UTC
            = Ok ("<" ++ fmt_Ymd_a (fromordinal (toordinal d - 1)) ++ ">")).
  { intros d Bd.
    pose proof (org_date_shift w d UTC Bd) as A. cbn zeta in A.
    set (wall := dt_seconds (combine_midnight d)) in *.
    specialize (Hlo wall).
    change (UTC (wall - local_utcoffset w wall)) with 0 in A.
    unfold SECONDS_PER_DAY in *.
    assert (Hk : (0 - local_utcoffset w wall) / 86400 = -1)
      by (symmetry;
          apply Z.div_unique with (86400 - local_utcoffset w wall); lia).
    rewrite Hk in A.
    replace (toordinal d + -1) with (toordinal d - 1) in A by lia.
    apply A; lia. }
  unfold stamps. rewrite Hs, He.
  rewrite (G s) by lia. cbn [rbind]. unfold date_add_days.
  replace ((0 <? toordinal e + -1) && (toordinal e + -1 <=? MAXORDINAL))
    with true
    by (symmetry; apply andb_true_iff; rewrite Z.ltb_lt, Z.leb_le; lia).
  cbn [rbind].
  rewrite G by (rewrite toordinal_fromordinal; lia).
  rewrite toordinal_fromordinal by lia. cbn [rbind].
  replace (toordinal e + -1 - 1) with (toordinal e - 2) by lia. reflexivity.
Qed.

Lemma X2_all_day_stamps_east_of_utc_witness :
  stamps (w_at 7200 []) utc_convertor (all_day_event (Some "Fair") None)
  = Ok ("  <2024-02-29 Thu>--<2024-03-01 Fri>" ++ NL).
Proof.
  apply (X2_all_day_stamps_east_of_utc (w_at 7200 []) utc_convertor
           (all_day_event (Some "Fair") None) (mkdate 2024 3 1) (mkdate 2024 3 3)).
  - reflexivity.
  - reflexivity.
  - vm_compute. intuition discriminate.
  - vm_compute. intuition discriminate.
  - vm_compute. split; reflexivity.
  - intros z. vm_compute. split; reflexivity.
Defined.

(** X3: the stamp of a date-time that carries its offset is the wall
    clock of the same instant at the offset the target zone has then;
    the zone of the machine plays no part. *)
Theorem X3_timed_stamp_same_instant {Cal : Type} (w : World Cal)
    (dt : datetime) (tz : tzinfo) (off : Z) :
  dt_utcoffset dt = Some off ->
  valid_datetime dt -> 2 <= year (dt_date dt) <= 9998 ->
  let u := dt_seconds dt - off in
  - SECONDS_PER_DAY < off < SECONDS_PER_DAY ->
  - SECONDS_PER_DAY < tz u < SECONDS_PER_DAY ->
  org_datetime w dt tz
  = Ok (strftime_datetime
          (mkdt (fromordinal ((u + tz u) / SECONDS_PER_DAY))
             ((u + tz u) mod SECONDS_PER_DAY) (Some (tz u)))).
Proof. apply org_datetime_instant. Qed.

Lemma X3_timed_stamp_same_instant_witness :
  org_datetime (w_at 7200 []) nine_oclock_plus_1 UTC
  = Ok "<2024-03-01 Fri 08:00>".
Proof.
  apply (X3_timed_stamp_same_instant (w_at 7200 []) nine_oclock_plus_1 UTC 3600).
  - reflexivity.
  - vm_compute. intuition discriminate.
  - vm_compute. intuition discriminate.
  - vm_compute. intuition discriminate.
  - vm_compute. intuition discriminate.
Defined.

(** X4: a date-time whose own offset is the one the target zone has at
    that instant is stamped with its own date and time of day. *)
Theorem X4_timed_stamp_same_offset {Cal : Type} (w : World Cal)
    (dt : datetime) (tz : tzinfo) (off : Z) :
  dt_utcoffset dt = Some off ->
  valid_datetime dt -> 2 <= year (dt_date dt) <= 9998 ->
  - SECONDS_PER_DAY < off < SECONDS_PER_DAY ->
  tz (dt_seconds dt - off) = off ->
  org_datetime w dt tz = Ok (strftime_datetime dt).
Proof.
  intros Ho V Hy Hoff Htz.
  rewrite (org_datetime_instant w dt tz off Ho V Hy Hoff)
    by (rewrite Htz; exact Hoff).
  rewrite Htz. destruct V as [Vd Vs].
  pose proof (toordinal_bounds _ Vd) as B.
  replace (dt_seconds dt - off + off) with (dt_seconds dt) by lia.
  unfold dt_seconds, SECONDS_PER_DAY in *.
  assert (Hq : (toordinal (dt_date dt) * 86400 + dt_sod dt) / 86400
               = toordinal (dt_date dt))
    by (symmetry; apply Z.div_unique with (dt_sod dt); lia).
  assert (Hr : (toordinal (dt_date dt) * 86400 + dt_sod dt) mod 86400
               = dt_sod dt)
    by (symmetry; apply Z.mod_unique with (toordinal (dt_date dt)); lia).
  rewrite Hq, Hr, fromordinal_toordinal by assumption. reflexivity.
Qed.

Lemma X4_timed_stamp_same_offset_witness :
  org_datetime (w_at 0 []) nine_oclock_plus_1 one_east
  = Ok "<2024-03-01 Fri 09:00>".
Proof.
  apply (X4_timed_stamp_same_offset (w_at 0 []) nine_oclock_plus_1 one_east 3600).
  - reflexivity.
  - vm_compute. intuition discriminate.
  - vm_compute. intuition discriminate.
  - vm_compute. intuition discriminate.
  - reflexivity.
Defined.

(** X5: for the years 1001 to 9998 and offsets from UTC under 24 hours
    the stamps have a fixed width: [org_date] returns 16 characters,
    and [org_datetime], for a date-time that carries its offset, 22.
    (The year is printed without padding, so the stamps of earlier
    years are shorter.) *)
Theorem X5_stamps_have_fixed_width {Cal : Type} (w : World Cal) (tz : tzinfo) :
  (forall d,
     valid_date d -> 1001 <= year d <= 9998 ->
     - SECONDS_PER_DAY
       < midnight_instant w d - dt_seconds (combine_midnight d)
       < SECONDS_PER_DAY ->
     - SECONDS_PER_DAY < tz (midnight_instant w d) < SECONDS_PER_DAY ->
     exists s, org_date w d tz = Ok s /\ String.length s = 16%nat)
  /\
  (forall dt off,
     dt_utcoffset dt = Some off ->
     valid_datetime dt -> 1001 <= year (dt_date dt) <= 9998 ->
     - SECONDS_PER_DAY < off < SECONDS_PER_DAY ->
     - SECONDS_PER_DAY < tz (dt_seconds dt - off) < SECONDS_PER_DAY ->
     exists s, org_datetime w dt tz = Ok s /\ String.length s = 22%nat).
Proof.
  split.
  - intros d Vd Hy Hu Htz.
    pose proof (toordinal_from_1001 d Vd ltac:(lia)) as L.
    pose proof (toordinal_before_9999 d Vd ltac:(lia)) as U.
    set (u := midnight_instant w d) in *.
    assert (Hm : dt_seconds (combine_midnight d)
                 = toordinal d * SECONDS_PER_DAY)
      by (unfold dt_seconds, combine_midnight; cbn; lia).
    unfold MAXORDINAL, SECONDS_PER_DAY in *.
    assert (Hs : toordinal d - 2 <= (u + tz u) / 86400 <= toordinal d + 1).
    { split; [apply Z.div_le_lower_bound
             | apply Z.lt_succ_r; apply Z.div_lt_upper_bound]; lia. }
    eexists. split.
    + apply (org_date_instant w d tz); unfold MAXORDINAL, SECONDS_PER_DAY;
        fold u; lia.
    + fold u. rewrite !length_append, length_fmt_Ymd_a; [reflexivity|].
      apply year_fromordinal_1000. unfold SECONDS_PER_DAY. lia.
  - intros dt off Ho V Hy Hoff Htz.
    pose proof (toordinal_from_1001 _ (proj1 V) ltac:(lia)) as L.
    eexists. split.
    + apply (org_datetime_instant w dt tz off Ho V); (lia || assumption).
    + unfold strftime_datetime. cbn [dt_date dt_sod].
      rewrite !length_append, length_fmt_Ymd_a; [reflexivity|].
      apply year_fromordinal_1000.
      destruct V as [Vd Vs]. unfold dt_seconds, SECONDS_PER_DAY in *.
      apply Z.div_le_lower_bound; lia.
Qed.

Lemma X5_stamps_have_fixed_width_witness :
  (exists s, org_date (w_at 3600 []) (mkdate 2024 3 1) UTC = Ok s
             /\ String.length s = 16%nat)
  /\ (exists s, org_datetime (w_at 3600 []) nine_oclock_plus_1 UTC = Ok s
                /\ String.length s = 22%nat).
Proof.
  split.
  - apply (proj1 (X5_stamps_have_fixed_width (w_at 3600 []) UTC)
             (mkdate 2024 3 1));
      vm_compute; intuition discriminate.
  - apply (proj2 (X5_stamps_have_fixed_width (w_at 3600 []) UTC)
             nine_oclock_plus_1 3600);
      solve [reflexivity | vm_compute; intuition discriminate].
Defined.

(** *** The loop *)

(** X6: the first event that fails ends the run with its error.  The
    sink has then received the blocks of the events before it and the
    lines the failing event wrote before its failing step, the error
    stream the progress bar of a loop left after those events; the
    events after the failing one play no part. *)
Theorem X6_first_failure_ends_run {Cal : Type} (w : World Cal)
    (self : Convertor) (input : string) (t : sink) (p : Proc) (cal : Cal)
    (pre : list RawEvent) (event : RawEvent) (post : list RawEvent)
    (bs : list string) (e : exn) :
  from_ical w input = Ok cal ->
  fetch w self cal = Ok (pre ++ event :: post)%list ->
  Forall2 (fun ev b => block w self ev = Ok b) pre bs ->
  block w self event = Raise e ->
  Convertor_call w self input t p
  = (put_err (tqdm_text w (List.length (pre ++ event :: post))
                (List.length pre))
       (puts t (bs ++ lines_before_failure w self event)%list p),
     Raise e).
Proof.
  intros Hc Hf Hpre Hb.
  rewrite Convertor_call_fetch, Hc.
  rewrite (bind_lift_ok _ cal) by reflexivity.
  rewrite (bind_lift_ok _ (pre ++ event :: post)%list) by assumption.
  rewrite (loop_first_failure w _ O self t pre event post bs
             (lines_before_failure w self event) e)
    by (try assumption; intros q; apply emit_failure; assumption).
  reflexivity.
Qed.

Lemma X6_first_failure_ends_run_witness :
  Convertor_call (w_at 0 talk_untitled_slides) utc_convertor "BEGIN:VCALENDAR"
    SinkFile fresh
  = (put_err (sample_bar 3 1)
       (puts SinkFile
          ["* Talk" ++ NL ++ "  <2024-03-01 Fri>--<2024-03-02 Sat>" ++ NL ++ NL]
          fresh),
     Raise (KeyError "SUMMARY")).
Proof.
  apply (X6_first_failure_ends_run (w_at 0 talk_untitled_slides) utc_convertor
           "BEGIN:VCALENDAR" SinkFile fresh talk_untitled_slides
           [all_day_event (Some "Talk") None] untitled_event
           [all_day_event (Some "Slides") None]
           ["* Talk" ++ NL ++ "  <2024-03-01 Fri>--<2024-03-02 Sat>" ++ NL ++ NL]).
  - reflexivity.
  - reflexivity.
  - constructor; [reflexivity | constructor].
  - reflexivity.
Defined.

(** X7: an exception of the expansion service (the [KeyError] it raises
    for an event without [DTSTART], say) leaves the call as it is, not
    as an [IcalError]: it comes before the loop, so nothing has been
    written and no progress bar shown. *)
Theorem X7_service_error_before_any_output {Cal : Type} (w : World Cal)
    (self : Convertor) (input : string) (t : sink) (p : Proc) (cal : Cal)
    (se : datetime * datetime) (e : exn) :
  from_ical w input = Ok cal ->
  window w self = Ok se ->
  between w cal (fst se) (snd se) = Raise e ->
  Convertor_call w self input t p = (p, Raise e).
Proof.
  intros Hc Hw Hb. unfold Convertor_call, bind, lift.
  rewrite Hc, Hw, Hb. reflexivity.
Qed.

Lemma X7_service_error_before_any_output_witness :
  Convertor_call w_service_fails utc_convertor "BEGIN:VCALENDAR" SinkFile fresh
  = (fresh, Raise (KeyError "DTSTART")).
Proof.
  apply (X7_service_error_before_any_output w_service_fails utc_convertor
           "BEGIN:VCALENDAR" SinkFile fresh []
           (mkdt (mkdate 2023 12 2) 43200 None,
            mkdt (mkdate 2024 5 30) 43200 None));
    reflexivity.
Defined.



(** *** Titles and bodies *)

(** X9: with the location shown and a non-empty [LOCATION], the title
    is the unescaped summary, [" - "] and the unescaped location, also
    when the summary is empty (the title then starts with the
    separator). *)
Theorem X9_title_with_location (self : Convertor) (event : RawEvent)
    (s l : string) :
  SUMMARY event = Some s ->
  LOCATION event = Some l -> l <> EmptyString ->
  include_location self = true ->
  title self event = Ok (unescape_commas s ++ " - " ++ unescape_commas l).
Proof.
  intros Hs Hl Hln Hi. unfold title. rewrite Hs, Hl, Hi.
  cbn [getitem rbind PyStr.truthy_opt].
  rewrite (truthy_nonempty l Hln). rewrite !replace_esc_comma.
  cbn [PyStr.truthy_opt].
  rewrite (unescape_commas_nonempty l Hln).
  rewrite orb_true_r. reflexivity.
Qed.

Lemma X9_title_with_location_witness :
  title utc_convertor (titled_event (Some EmptyString) (Some room_5))
  = Ok " - Room, 5".
Proof.
  apply (X9_title_with_location utc_convertor
           (titled_event (Some EmptyString) (Some room_5))
           EmptyString room_5);
    solve [reflexivity | discriminate].
Defined.

(** X10: with the location hidden and a non-empty [LOCATION], the title
    is the unescaped summary alone; for an empty summary it is the empty
    text, not the placeholder. *)
Theorem X10_title_without_location (self : Convertor) (event : RawEvent)
    (s l : string) :
  SUMMARY event = Some s ->
  LOCATION event = Some l -> l <> EmptyString ->
  include_location self = false ->
  title self event = Ok (unescape_commas s).
Proof.
  intros Hs Hl Hln Hi. unfold title. rewrite Hs, Hl, Hi.
  cbn [getitem rbind PyStr.truthy_opt].
  rewrite (truthy_nonempty l Hln). rewrite !replace_esc_comma.
  cbn [PyStr.truthy_opt].
  rewrite (unescape_commas_nonempty l Hln).
  rewrite orb_true_r. cbn [negb andb]. rewrite append_nil_r. reflexivity.
Qed.

Lemma X10_title_without_location_witness :
  title (mkConvertor UTC 90 false)
    (titled_event (Some EmptyString) (Some room_5))
  = Ok EmptyString.
Proof.
  apply (X10_title_without_location (mkConvertor UTC 90 false)
           (titled_event (Some EmptyString) (Some room_5))
           EmptyString room_5);
    solve [reflexivity | discriminate].
Defined.

(** X11: text without a backslash passes through: a non-empty summary
    without one, with no location, is the title as it stands, and a
    description without one and without markup is the body as it
    stands. *)
Theorem X11_plain_text_unchanged {Cal : Type} (w : World Cal)
    (self : Convertor) (event : RawEvent) (s d : string) :
  SUMMARY event = Some s -> s <> EmptyString -> plain s = true ->
  LOCATION event = None ->
  DESCRIPTION event = Some d -> plain d = true -> has_markup w d = false ->
  title self event = Ok s /\ body w d = Ok d.
Proof.
  intros Hs Hsn Ps Hl Hd Pd Hm. split.
  - unfold title. rewrite Hs, Hl. cbn [getitem rbind PyStr.truthy_opt].
    rewrite replace_esc_comma, (unescape_commas_plain s Ps).
    rewrite (truthy_nonempty s Hsn). cbn [orb negb]. rewrite append_nil_r.
    reflexivity.
  - rewrite body_unescape, Hm. cbn [rbind]. rewrite (unescape_plain d Pd).
    reflexivity.
Qed.

Lemma X11_plain_text_unchanged_witness :
  title utc_convertor (all_day_event (Some "Exam, part 1") (Some "Room <5>"))
  = Ok "Exam, part 1"
  /\ body (w_at 0 []) "Room <5>" = Ok "Room <5>".
Proof.
  apply (X11_plain_text_unchanged (w_at 0 []) utc_convertor
           (all_day_event (Some "Exam, part 1") (Some "Room <5>")));
    solve [reflexivity | discriminate].
Defined.

(** *** The command line *)

(** X12: with [--print-timezones] the process prints the names of the
    registry, one per line, on the standard output and exits with
    status 0, whatever the other options and the input are: no zone
    name is checked and nothing is converted. *)
Theorem X12_print_timezones_only {Cal : Type} (w : World Cal) (a : Args) :
  arg_print_timezones a = true ->
  run w a = (mkProc (lines (all_timezones w)) EmptyString None, 0).
Proof.
  intros H. unfold run, command, print_timezones. rewrite H. cbn [negb].
  unfold bind. rewrite for_each_echo. reflexivity.
Qed.

Lemma X12_print_timezones_only_witness :
  run (w_at 0 mixed_events) list_zones_and_more
  = (mkProc ("Europe/Paris" ++ NL ++ "UTC" ++ NL) EmptyString None, 0).
Proof.
  apply (X12_print_timezones_only (w_at 0 mixed_events) list_zones_and_more).
  reflexivity.
Defined.

(** X13: when the calendar cannot be decoded the process prints
    [Parsing error: ] and the decoder's message, then [Aborted!], on the
    error stream and exits with status 1; the standard output is empty
    and the output file is not opened. *)
Theorem X13_parse_error_reported {Cal : Type} (w : World Cal) (a : Args)
    (self : Convertor) (m : string) :
  arg_print_timezones a = false -> zone_accepted w a ->
  Convertor_init w (days_of a) (arg_timezone a) (arg_include_location a)
    = Ok self ->
  from_ical w (arg_ics a) = Raise (ValueError m) ->
  run w a
  = (mkProc EmptyString ("Parsing error: " ++ m ++ NL ++ "Aborted!" ++ NL) None,
     1).
Proof.
  intros Hp Hz Hi Hd. unfold run. rewrite command_main by assumption.
  unfold main. rewrite (bind_lift_ok _ self) by assumption.
  rewrite (decode_error_run w self _ _ fresh _ Hd).
  unfold bind, echo_err, raise. cbn [stdout stderr outfile fresh].
  rewrite !append_assoc. reflexivity.
Qed.

Lemma X13_parse_error_reported_witness :
  run (w_at 0 mixed_events) empty_input_to_file
  = (mkProc EmptyString
       ("Parsing error: Content line could not be parsed" ++ NL
        ++ "Aborted!" ++ NL) None,
     1).
Proof.
  apply (X13_parse_error_reported (w_at 0 mixed_events) empty_input_to_file
           (mkConvertor UTC 90 true) "Content line could not be parsed");
    reflexivity.
Defined.



(** X15: when the window holds no event the process exits with status
    0; the standard output is empty, the output file is not opened, and
    the progress bar of a loop over nothing is all there is on the error
    stream. *)
Theorem X15_empty_window_writes_only_the_bar {Cal : Type} (w : World Cal)
    (a : Args) (self : Convertor) (cal : Cal) :
  arg_print_timezones a = false -> zone_accepted w a ->
  Convertor_init w (days_of a) (arg_timezone a) (arg_include_location a)
    = Ok self ->
  from_ical w (arg_ics a) = Ok cal ->
  fetch w self cal = Ok [] ->
  run w a = (mkProc EmptyString (tqdm_text w 0 0) None, 0).
Proof.
  intros Hp Hz Hi Hd Hf.
  unfold run. rewrite command_main by assumption.
  unfold main. rewrite (bind_lift_ok _ self) by assumption.
  rewrite (call_all_ok w self (arg_ics a) (arg_org a) fresh cal [] [])
    by (assumption || constructor).
  reflexivity.
Qed.

Lemma X15_empty_window_writes_only_the_bar_witness :
  run (w_at 0 []) paris_to_file = (mkProc EmptyString ("||" ++ NL) None, 0).
Proof.
  apply (X15_empty_window_writes_only_the_bar (w_at 0 []) paris_to_file
           (mkConvertor one_east 30 true) []);
    reflexivity.
Defined.

(** X16: an identifier that is not in the registry ends the process
    with status 1 after the two messages on the standard output; the
    error stream is empty, no output file is opened, and a file given as
    sink has received zero bytes. *)
Theorem X16_unknown_zone_leaves_file_alone {Cal : Type} (w : World Cal)
    (a : Args) (v : string) :
  arg_print_timezones a = false ->
  arg_timezone a = Some v ->
  mem v (all_timezones w) = false ->
  run w a
  = (mkProc ("Invalid timezone value " ++ v ++ "." ++ NL
             ++ "Use --print-timezones to show acceptable values." ++ NL)
       EmptyString None, 1)
  /\ sink_bytes SinkFile (fst (run w a)) = EmptyString.
Proof.
  intros Hp Ht Hm. rewrite (invalid_timezone_run w a v Hp Ht Hm).
  split; reflexivity.
Qed.

Lemma X16_unknown_zone_leaves_file_alone_witness :
  run (w_at 0 mixed_events) bad_zone_to_file
  = (mkProc ("Invalid timezone value Mars/Base." ++ NL
             ++ "Use --print-timezones to show acceptable values." ++ NL)
       EmptyString None, 1)
  /\ sink_bytes SinkFile (fst (run (w_at 0 mixed_events) bad_zone_to_file))
     = EmptyString.
Proof.
  apply (X16_unknown_zone_leaves_file_alone (w_at 0 mixed_events)
           bad_zone_to_file "Mars/Base");
    reflexivity.
Defined.

(** *** The window *)

(** X17: for a clock reading [now] and a number of days that keeps both
    ends within the calendar, the window starts that many days before
    [now] and ends that many days after it, at the same time of day. *)
Theorem X17_window_centered_on_now {Cal : Type} (w : World Cal)
    (self : Convertor) :
  valid_datetime (now w) ->
  0 <= days self ->
  0 < toordinal (dt_date (now w)) - days self ->
  toordinal (dt_date (now w)) + days self <= MAXORDINAL ->
  window w self
  = Ok (mkdt (fromordinal (toordinal (dt_date (now w)) - days self))
          (dt_sod (now w)) (dt_utcoffset (now w)),
        mkdt (fromordinal (toordinal (dt_date (now w)) + days self))
          (dt_sod (now w)) (dt_utcoffset (now w))).
Proof.
  intros V H0 Hlo Hhi. pose proof (toordinal_bounds _ (proj1 V)) as B.
  unfold window, timedelta_days.
  replace (Z.abs (days self) <=? 999999999) with true
    by (symmetry; apply Z.leb_le; unfold MAXORDINAL in *; lia).
  cbn [rbind].
  replace (- (days self * SECONDS_PER_DAY))
    with ((- days self) * SECONDS_PER_DAY) by lia.
  rewrite (add_seconds_days (now w) (- days self)) by (try assumption; lia).
  cbn [rbind].
  rewrite (add_seconds_days (now w) (days self)) by (try assumption; lia).
  cbn [rbind].
  replace (toordinal (dt_date (now w)) + - days self)
    with (toordinal (dt_date (now w)) - days self) by lia.
  reflexivity.
Qed.

Lemma X17_window_centered_on_now_witness :
  window (w_at 0 []) utc_convertor
  = Ok (mkdt (mkdate 2023 12 2) 43200 None, mkdt (mkdate 2024 5 30) 43200 None).
Proof.
  apply (X17_window_centered_on_now (w_at 0 []) utc_convertor).
  - vm_compute. intuition discriminate.
  - vm_compute. discriminate.
  - vm_compute. reflexivity.
  - vm_compute. discriminate.
Defined.

(** X18: a number of days that reaches back to before year 1 makes the
    call raise [OverflowError] once the calendar is decoded, before any
    event is fetched or written. *)
Theorem X18_window_out_of_range {Cal : Type} (w : World Cal)
    (self : Convertor) (input : string) (t : sink) (p : Proc) (cal : Cal) :
  valid_datetime (now w) ->
  from_ical w input = Ok cal ->
  toordinal (dt_date (now w)) <= days self ->
  exists m, window w self = Raise (OverflowError m)
    /\ Convertor_call w self input t p = (p, Raise (OverflowError m)).
Proof.
  intros V Hc Hd.
  assert (G : exists m, window w self = Raise (OverflowError m)).
  { unfold window, timedelta_days.
    destruct (Z.abs (days self) <=? 999999999); [|eexists; reflexivity].
    cbn [rbind].
    replace (- (days self * SECONDS_PER_DAY))
      with ((- days self) * SECONDS_PER_DAY) by lia.
    rewrite add_seconds_days_overflow by (try assumption; lia).
    eexists; reflexivity. }
  destruct G as [m G]. exists m. split; [exact G|].
  unfold Convertor_call, bind, lift. rewrite Hc, G. reflexivity.
Qed.

Lemma X18_window_out_of_range_witness :
  exists m, window (w_at 0 mixed_events) million_days = Raise (OverflowError m)
    /\ Convertor_call (w_at 0 mixed_events) million_days "BEGIN:VCALENDAR"
         SinkFile fresh
       = (fresh, Raise (OverflowError m)).
Proof.
  apply (X18_window_out_of_range (w_at 0 mixed_events) million_days
           "BEGIN:VCALENDAR" SinkFile fresh mixed_events).
  - vm_compute. intuition discriminate.
  - reflexivity.
  - vm_compute. discriminate.
Defined.
